(** * Count Sketch over a discretized stream: a shallow embedding

    The development follows [count-sketch-code.py]: the two hash functions,
    the [count_sketch] update of one batch, [process_batch], the computation
    of the approximate histogram and the final statistics (top-K listing,
    tie extension, average relative error, second moments).

    Conventions of the embedding.
    - Python integers are [Z].  Python's [%] is the floor remainder whose
      sign follows the divisor, which is [Z.modulo].
    - A Python [dict] keeps its keys in insertion order; it is an
      association list whose keys are pairwise distinct ([dict]).
    - The module-level globals that are fixed once [__main__] has read its
      arguments ([D], [W], [left], [right], [K], [p], [a], [b]) are the
      fields of [Globals]; the mutable ones ([streamLength], [histogram],
      [approx_histogram], [sketch], [stopping_condition]) are the fields of
      [State], threaded explicitly.
    - [sketch] is a [D] x [W] array of doubles that only ever holds integer
      values (it starts at zero and is changed by adding sums of +1/-1), so
      its cells are [Z]; doubles are exact on integers below 2^53, far above
      what [THRESHOLD] items can reach.  The values computed from the
      sketch by [np.median], and the statistics derived from them, are
      [float64]: a rational or [nan].
    - The hash parameters are below 2^13, so [a * x + b] stays within 64
      bits for every item below 2^50 in magnitude; the arithmetic of the
      hash functions is that of [Z].  For larger items numpy's 64-bit
      product wraps around, which [h_hash] and [g_hash] do not follow.
    - On a sketch of [D] rows and [W > 0] columns, [sketch[j, key]] always
      finds its cell.  With [W = 0], or on a sketch of another shape, numpy
      raises [IndexError] where [sketch_add] leaves the sketch as it is and
      [sketch_get] reads 0; the statements about cells carry [0 < W] and
      [sketch_shape].
    - Exceptions are the [Raise] outcomes of the [result] monad. *)

From Stdlib Require Import ZArith QArith Qabs List Lia Permutation Sorted.
From stdpp Require Import base option list numbers sorting.
Import ListNotations.
Local Open Scope Z_scope.

(** ** Python values and exceptions *)

Inductive exn : Type :=
| IndexError
| KeyError
| NameError
| ZeroDivisionError
| ValueError
| OutOfFuel. (* not a Python exception: the bound of the embedded
                [while True] loop was exhausted; see [tie_loop_total] *)

Inductive result (A : Type) : Type :=
| Ok (x : A)
| Raise (e : exn).
Arguments Ok {A} x.
Arguments Raise {A} e.

#[global] Instance result_ret : MRet result := fun A x => Ok x.
#[global] Instance result_bind : MBind result := fun A B f m =>
  match m with
  | Ok x => f x
  | Raise e => Raise e
  end.

(** Doubles, as far as the program produces them: rationals and [nan]
    ([np.median] and [np.mean] of an empty list). *)
Inductive float64 : Type :=
| nan
| fin (q : Q).

Definition of_int (z : Z) : float64 := fin (inject_Z z).

Definition fl_add (x y : float64) : float64 :=
  match x, y with
  | fin q, fin r => fin (q + r)
  | _, _ => nan
  end.

Definition fl_sub (x y : float64) : float64 :=
  match x, y with
  | fin q, fin r => fin (q - r)
  | _, _ => nan
  end.

Definition fl_abs (x : float64) : float64 :=
  match x with
  | fin q => fin (Qabs q)
  | nan => nan
  end.

Definition fl_sq (x : float64) : float64 :=
  match x with
  | fin q => fin (q * q)
  | nan => nan
  end.

(** [x / n] for a double [x] and an integer [n].  A zero divisor gives
    [inf] or [nan] with a warning in numpy, never an exception; the
    program only divides a double by a true frequency, which is positive
    ([histogram_positive]), so that case is folded into [nan]. *)
Definition fl_div_int (x : float64) (n : Z) : float64 :=
  match x with
  | fin q => if n =? 0 then nan else fin (q / inject_Z n)
  | nan => nan
  end.

(** [x == y] on doubles: [nan] equals nothing. *)
Definition fl_eqb (x y : float64) : bool :=
  match x, y with
  | fin q, fin r => Qeq_bool q r
  | _, _ => false
  end.

(** [x / y] on Python integers. *)
Definition py_truediv (x y : Z) : result Q :=
  if y =? 0 then Raise ZeroDivisionError
  else Ok (inject_Z x / inject_Z y)%Q.

(** [l[i]] on a Python list: negative indices count from the end. *)
Definition py_index {A : Type} (l : list A) (i : Z) : result A :=
  let n := Z.of_nat (length l) in
  if (0 <=? i) && (i <? n) then
    match l !! Z.to_nat i with Some x => Ok x | None => Raise IndexError end
  else if (- n <=? i) && (i <? 0) then
    match l !! Z.to_nat (n + i) with Some x => Ok x | None => Raise IndexError end
  else Raise IndexError.

(** [np.arange(lo, hi)] *)
Definition np_arange (lo hi : Z) : list Z :=
  List.map (fun i => lo + Z.of_nat i) (seq 0 (Z.to_nat (hi - lo))).

(** [arr[i]] on the parameter arrays [a] and [b].  They have [2 * D]
    entries and are only read at [j] and [j + D] with [0 <= j < D]. *)
Definition np_get (arr : list Z) (i : Z) : Z := nth (Z.to_nat i) arr 0.

(** ** Dictionaries *)

Definition dict (V : Type) : Type := list (Z * V).

Fixpoint dict_get {V : Type} (d : dict V) (k : Z) : option V :=
  match d with
  | [] => None
  | (k', v) :: d' => if k' =? k then Some v else dict_get d' k
  end.

(** [d[k] = v]: in place when [k] is a key, appended otherwise. *)
Fixpoint dict_set {V : Type} (d : dict V) (k : Z) (v : V) : dict V :=
  match d with
  | [] => [(k, v)]
  | (k', v') :: d' =>
      if k' =? k then (k', v) :: d' else (k', v') :: dict_set d' k v
  end.

Definition dict_keys {V : Type} (d : dict V) : list Z := List.map fst d.

(** [d[k]] *)
Definition dict_lookup {V : Type} (d : dict V) (k : Z) : result V :=
  match dict_get d k with
  | Some v => Ok v
  | None => Raise KeyError
  end.

(** [if key not in d: d[key] = v else: d[key] += v] *)
Definition dict_add (d : dict Z) (key v : Z) : dict Z :=
  match dict_get d key with
  | None => dict_set d key v
  | Some c => dict_set d key (c + v)
  end.

(** [rdd.reduceByKey(lambda x, y: x + y).collectAsMap()] on the list of
    pairs of an RDD: one entry per key, holding the sum of its values.
    Spark leaves the order of the collected entries open; the embedding
    lists the keys by first occurrence. *)
Definition reduceByKey_collectAsMap (kvs : list (Z * Z)) : dict Z :=
  fold_left (fun d kv => dict_add d kv.1 kv.2) kvs [].

(** ** Globals and state *)

Record Globals : Type := {
  D : Z;
  W : Z;
  left : Z;
  right : Z;
  K : Z;
  p : Z;
  a : list Z;
  b : list Z
}.

Record State : Type := {
  streamLength : Z * Z;
  histogram : dict Z;
  approx_histogram : dict float64;
  sketch : list (list Z);
  stopping_condition : bool
}.

Definition THRESHOLD : Z := 10000000.

(** ** Hash functions and the sketch *)

Section CountSketch.
Variable G : Globals.

Definition h_hash (x a b : Z) : Z := ((a * x + b) mod p G) mod W G.

Definition g_hash (x a b : Z) : Z :=
  let hash_value := ((a * x + b) mod p G) mod 2 in
  2 * hash_value - 1.

(** [sketch[j, key] += v].  The row comes from [np.arange(0, D)] and the
    column from [h_hash], which lies in [[0, W)] when [W > 0]
    ([h_hash_range]); both are natural numbers. *)
Definition sketch_add (j key v : Z) (sketch : list (list Z)) : list (list Z) :=
  alter (alter (fun c => c + v) (Z.to_nat key)) (Z.to_nat j) sketch.

(** [sketch[j, key]] *)
Definition sketch_get (sketch : list (list Z)) (j key : Z) : Z :=
  default 0 (sketch !! Z.to_nat j ≫= fun row => row !! Z.to_nat key).

(** the dictionary [sketch_dict] of row [j] *)
Definition sketch_dict (j : Z) (f_batch : list Z) : dict Z :=
  reduceByKey_collectAsMap
    (List.map (fun x => (h_hash x (np_get (a G) j) (np_get (b G) j),
                         g_hash x (np_get (a G) (j + D G)) (np_get (b G) (j + D G))))
              f_batch).

Definition count_sketch (f_batch : list Z) (sketch : list (list Z)) : list (list Z) :=
  fold_left
    (fun sketch j =>
       fold_left (fun sketch kv => sketch_add j kv.1 kv.2 sketch)
                 (sketch_dict j f_batch) sketch)
    (np_arange 0 (D G)) sketch.

(** ** [process_batch] *)

Definition in_interval (x : Z) : bool := (left G <=? x) && (x <=? right G).

(** The batch is the list of the integers [int(x)] of its tokens, in the
    order of the RDD. *)
Definition process_batch (batch : list Z) (st : State) : State :=
  let batch_size := Z.of_nat (length batch) in
  if THRESHOLD <=? (streamLength st).1 then st
  else
    let seen := (streamLength st).1 + batch_size in
    let filtered_batch := List.filter in_interval batch in
    let admitted := (streamLength st).2 + Z.of_nat (length filtered_batch) in
    let batch_items :=
      reduceByKey_collectAsMap (List.map (fun s => (s, 1)) filtered_batch) in
    let histogram' :=
      fold_left (fun h kv => dict_add h kv.1 kv.2) batch_items (histogram st) in
    let sketch' := count_sketch filtered_batch (sketch st) in
    {| streamLength := (seen, admitted);
       histogram := histogram';
       approx_histogram := approx_histogram st;
       sketch := sketch';
       stopping_condition :=
         if THRESHOLD <=? seen then true else stopping_condition st |}.

End CountSketch.

(** ** Initialisation in [__main__] *)

(** [np.random.randint(low, high, size)]: [size] draws in [[low, high)],
    taken from the stream [draw] of the generator's raw outputs; a
    negative [size] is refused. *)
Definition np_random_randint (low high size : Z) (draw : nat -> Z) : result (list Z) :=
  if size <? 0 then Raise ValueError
  else Ok (List.map (fun i => low + draw i mod (high - low)) (seq 0 (Z.to_nat size))).

(** [np.zeros((rows, cols))]: negative dimensions are refused. *)
Definition np_zeros (rows cols : Z) : result (list (list Z)) :=
  if (rows <? 0) || (cols <? 0) then Raise ValueError
  else Ok (replicate (Z.to_nat rows) (replicate (Z.to_nat cols) 0)).

(** The part of [__main__] between the reading of the arguments and the
    creation of the stream; the five arguments are the integers produced
    by [int(sys.argv[i])]. *)
Definition main_init (D W left right K : Z) (draw_a draw_b : nat -> Z)
  : result (Globals * State) :=
  let p := 8191 in
  a ← np_random_randint 1 (p - 1) (D * 2) draw_a;
  b ← np_random_randint 0 (p - 1) (D * 2) draw_b;
  sketch ← np_zeros D W;
  mret ({| D := D; W := W; left := left; right := right; K := K;
           p := p; a := a; b := b |},
        {| streamLength := (0, 0);
           histogram := [];
           approx_histogram := [];
           sketch := sketch;
           stopping_condition := false |}).

(** ** The approximate histogram *)

Fixpoint insert_sorted (x : Z) (l : list Z) : list Z :=
  match l with
  | [] => [x]
  | y :: l' => if x <=? y then x :: l else y :: insert_sorted x l'
  end.

Definition np_sort (l : list Z) : list Z := foldr insert_sorted [] l.

Definition fl_sum (l : list float64) : float64 := fold_left fl_add l (fin 0).

(** [np.mean] of a list of doubles; [nan] on the empty list. *)
Definition np_mean (l : list float64) : float64 :=
  match l with
  | [] => nan
  | _ => fl_div_int (fl_sum l) (Z.of_nat (length l))
  end.

(** [np.median] of a list of integer-valued doubles, as numpy computes
    it: with [index = n // 2], the mean of the slice [index : index + 1]
    of the ordered values when [n] is odd and of the slice
    [index - 1 : index + 1] when [n] is even.  (numpy only partitions
    around these positions, which puts the same values there as a full
    sort does.)  The slice is empty when [n = 0]. *)
Definition np_median (l : list Z) : float64 :=
  let part := np_sort l in
  let n := length part in
  let index := (n / 2)%nat in
  let indexer :=
    if (n mod 2 =? 1)%nat then take 1 (drop index part)
    else take 2 (drop (index - 1)%nat part) in
  np_mean (List.map of_int indexer).

Section Estimate.
Variable G : Globals.

(** the list [approx_freq_list] built for item [u] *)
Definition approx_freq_list (sketch : list (list Z)) (u : Z) : list Z :=
  List.map
    (fun j => g_hash G u (np_get (a G) (j + D G)) (np_get (b G) (j + D G))
              * sketch_get sketch j (h_hash G u (np_get (a G) j) (np_get (b G) j)))
    (np_arange 0 (D G)).

Definition set_approx (st : State) (u : Z) (v : float64) : State :=
  {| streamLength := streamLength st;
     histogram := histogram st;
     approx_histogram := dict_set (approx_histogram st) u v;
     sketch := sketch st;
     stopping_condition := stopping_condition st |}.

(** [for u in histogram: ... approx_histogram[u] = np.median(approx_freq_list)] *)
Definition compute_approx_histogram (st : State) : State :=
  fold_left
    (fun st u => set_approx st u (np_median (approx_freq_list (sketch st) u)))
    (dict_keys (histogram st)) st.

End Estimate.

(** ** The ranking *)

(** [sorted(l, key = key, reverse = True)].  Python's sort is stable, also
    with [reverse = True]: elements with equal keys keep the order they
    have in [l].  That determines the result, which is computed here by a
    stable insertion sort. *)
Fixpoint insert_desc {A : Type} (key : A -> Z) (x : A) (l : list A) : list A :=
  match l with
  | [] => [x]
  | y :: l' => if key x <? key y then y :: insert_desc key x l' else x :: l
  end.

Definition sorted_reverse {A : Type} (key : A -> Z) (l : list A) : list A :=
  foldr (insert_desc key) [] l.

(** ** Statistics and prints *)

(** The variables of the output section.  [item], [true_freq] and
    [approx_freq] are unbound until a loop body assigns them.  [lines]
    collects the printed "Item ... Freq = ... Est. Freq = ..." lines. *)
Record Locals : Type := {
  count : Z;
  item : option Z;
  true_freq : option Z;
  approx_freq : option float64;
  avg_error_list : list float64;
  F2_list : list Z * list float64;
  lines : list (Z * Z * float64)
}.

Record Report : Type := {
  total_items : Z;
  total_items_in_R : Z;
  distinct_items_in_R : Z;
  item_lines : list (Z * Z * float64);
  avg_err : float64;
  F2 : Q;
  F2_estimate : float64
}.

(** [abs(true_freq - approx_freq) / true_freq] *)
Definition rel_err (true_freq : Z) (approx_freq : float64) : float64 :=
  fl_div_int (fl_abs (fl_sub (of_int true_freq) approx_freq)) true_freq.

Definition fold_result {A B : Type} (f : B -> A -> result B) (l : list A) (b : B)
  : result B :=
  fold_left (fun r x => r ≫= fun acc => f acc x) l (Ok b).

(** the value of a variable that may be unbound *)
Definition read_var {A : Type} (v : option A) : result A :=
  match v with
  | Some x => Ok x
  | None => Raise NameError
  end.

Section Output.
Variable G : Globals.
Variable desc_histogram : list (Z * Z).
Variable approx_histogram : dict float64.

(** The two branches [K <= 20] and [K > 20] run the same three loops; the
    first one also prints a line per item and binds [item].  [printing]
    tells the branches apart. *)
Variable printing : bool.

(** body of [for k in np.arange(0, K)] *)
Definition top_body (lv : Locals) (k : Z) : result Locals :=
  e ← py_index desc_histogram k;
  af ← dict_lookup approx_histogram e.1;
  mret {| count := count lv;
          item := if printing then Some e.1 else item lv;
          true_freq := Some e.2;
          approx_freq := Some af;
          avg_error_list := avg_error_list lv ++ [rel_err e.2 af];
          F2_list := ((F2_list lv).1 ++ [e.2 ^ 2], (F2_list lv).2 ++ [fl_sq af]);
          lines := if printing then lines lv ++ [(e.1, e.2, af)] else lines lv |}.

(** One turn of [while True]: [Some] of the new variables when the loop
    goes on, [None] at [break]. *)
Definition tie_step (lv : Locals) : result (option Locals) :=
  e1 ← py_index desc_histogram (K G - 1);
  x ← dict_lookup approx_histogram e1.1;
  e2 ← py_index desc_histogram (K G - 1 + count lv);
  y ← dict_lookup approx_histogram e2.1;
  if fl_eqb x y then
    let count' := count lv + 1 in
    e ← py_index desc_histogram (K G + count');
    af ← dict_lookup approx_histogram e.1;
    mret (Some {| count := count';
                  item := if printing then Some e.1 else item lv;
                  true_freq := Some e.2;
                  approx_freq := Some af;
                  avg_error_list := avg_error_list lv ++ [rel_err e.2 af];
                  F2_list := F2_list lv;
                  lines := if printing then lines lv ++ [(e.1, e.2, af)]
                           else lines lv |})
  else mret None.

Fixpoint tie_loop (fuel : nat) (lv : Locals) : result Locals :=
  match fuel with
  | O => Raise OutOfFuel
  | S fuel' =>
      r ← tie_step lv;
      match r with
      | Some lv' => tie_loop fuel' lv'
      | None => mret lv
      end
  end.

(** body of [for k in np.arange(K, len(histogram))] *)
Definition rest_body (lv : Locals) (k : Z) : result Locals :=
  t ← read_var (true_freq lv);
  af ← read_var (approx_freq lv);
  mret {| count := count lv;
          item := item lv;
          true_freq := true_freq lv;
          approx_freq := approx_freq lv;
          avg_error_list := avg_error_list lv;
          F2_list := ((F2_list lv).1 ++ [t ^ 2], (F2_list lv).2 ++ [fl_sq af]);
          lines := lines lv |}.

Definition sum_Z (l : list Z) : Z := fold_left Z.add l 0.

(** [sum(F2_list[1]) / (streamLength[1] ** 2)]: [sum] of an empty list
    is the integer 0, and the division is then one of integers. *)
Definition F2_estimate_value (l : list float64) (admitted : Z) : result float64 :=
  match l with
  | [] => q ← py_truediv 0 (admitted ^ 2); mret (fin q)
  | _ => Ok (fl_div_int (fl_sum l) (admitted ^ 2))
  end.

End Output.

(** The output section of [__main__], from the sort on: [printing] is
    the test [K <= 20] that selects the branch. *)
Definition statistics (G : Globals) (st : State) : result Report :=
  let desc_histogram := sorted_reverse (fun item => item.2) (histogram st) in
  let printing := K G <=? 20 in
  let lv0 := {| count := 1; item := None; true_freq := None; approx_freq := None;
                avg_error_list := []; F2_list := ([], []); lines := [] |} in
  lv1 ← fold_result (top_body desc_histogram (approx_histogram st) printing)
                    (np_arange 0 (K G)) lv0;
  lv2 ← tie_loop G desc_histogram (approx_histogram st) printing
                 (S (2 * length desc_histogram)) lv1;
  lv3 ← fold_result rest_body
                    (np_arange (K G) (Z.of_nat (length (histogram st)))) lv2;
  let avg := np_mean (avg_error_list lv3) in
  f2 ← py_truediv (sum_Z (F2_list lv3).1) ((streamLength st).2 ^ 2);
  f2e ← F2_estimate_value (F2_list lv3).2 (streamLength st).2;
  mret {| total_items := (streamLength st).1;
          total_items_in_R := (streamLength st).2;
          distinct_items_in_R := Z.of_nat (length (histogram st));
          item_lines := lines lv3;
          avg_err := avg;
          F2 := f2;
          F2_estimate := f2e |}.

(** The whole output section on the state left by the stream. *)
Definition outputs (G : Globals) (st : State) : result Report :=
  statistics G (compute_approx_histogram G st).

(** A whole run: initialisation, the batches of the stream in order, the
    output section. *)
Definition run (D W left right K : Z) (draw_a draw_b : nat -> Z)
  (stream : list (list Z)) : result Report :=
  '(G, st) ← main_init D W left right K draw_a draw_b;
  outputs G (fold_left (fun st batch => process_batch G batch st) stream st).

(** ** Definitions used to state the properties *)

(** A commuting family of state changes [act key v], applied along a list
    of pairs. *)
Definition apply_all {St : Type} (act : Z -> Z -> St -> St)
  (kvs : list (Z * Z)) (s : St) : St :=
  fold_left (fun s kv => act kv.1 kv.2 s) kvs s.

(** A list of cell updates [(j, key, v)], applied from left to right. *)
Definition apply_ops (ops : list (Z * Z * Z)) (sk : list (list Z)) : list (list Z) :=
  fold_left (fun sk o => sketch_add o.1.1 o.1.2 o.2 sk) ops sk.


(** [Update(item, weight)] as the specification words it: for every row
    [j], add [SignHash(item, j) * weight] to the cell of column
    [BucketHash(item, j)]. *)
Definition Update (G : Globals) (item weight : Z) (sk : list (list Z))
  : list (list Z) :=
  fold_left
    (fun sk j =>
       sketch_add j (h_hash G item (np_get (a G) j) (np_get (b G) j))
                  (g_hash G item (np_get (a G) (j + D G)) (np_get (b G) (j + D G)) * weight)
                  sk)
    (np_arange 0 (D G)) sk.

(** the cell update that [item], taken [weight] times, makes in row [j] *)
Definition cell_op (G : Globals) (weight item j : Z) : Z * Z * Z :=
  (j, h_hash G item (np_get (a G) j) (np_get (b G) j),
   g_hash G item (np_get (a G) (j + D G)) (np_get (b G) (j + D G)) * weight).

Definition item_ops (G : Globals) (weight item : Z) : list (Z * Z * Z) :=
  List.map (cell_op G weight item) (np_arange 0 (D G)).

Definition has_key (k : Z) (kvs : list (Z * Z)) : bool :=
  existsb (fun kv => kv.1 =? k) kvs.

Definition weight_of (k : Z) (kvs : list (Z * Z)) : Z :=
  foldr (fun kv acc => if kv.1 =? k then kv.2 + acc else acc) 0 kvs.

(** the number of occurrences of [x] in a batch *)
Definition multiplicity (x : Z) (l : list Z) : Z :=
  Z.of_nat (count_occ Z.eq_dec l x).

(** equality of doubles up to the representation of the rational *)
Definition fl_equiv (x y : float64) : Prop :=
  match x, y with
  | nan, nan => True
  | fin q, fin r => (q == r)%Q
  | _, _ => False
  end.

(** the middle of an ordered list: the value at [n / 2] for an odd length
    [n], the mean of the values at [n / 2 - 1] and [n / 2] for an even one *)
Definition middle (s : list Z) : float64 :=
  let n := length s in
  let lo := nth (n / 2 - 1)%nat s 0 in
  let hi := nth (n / 2)%nat s 0 in
  if Nat.odd n then of_int hi
  else fin ((inject_Z lo + inject_Z hi) / 2)%Q.

(** descending order of the keys *)
Definition key_ge {A : Type} (key : A -> Z) (x y : A) : Prop := key y <= key x.

(** the second moment of the true frequencies, as specified *)
Definition F2True (histogram : dict Z) (admitted : Z) : Q :=
  let squares := sum_Z (List.map (fun it : Z * Z => it.2 ^ 2) histogram) in
  (inject_Z squares / inject_Z (admitted ^ 2)%Z)%Q.

(** *** Example data *)

(** Globals used in the examples: two rows, three columns. *)
Definition G_2x3 : Globals :=
  {| D := 2; W := 3; left := 1; right := 9; K := 1; p := 8191;
     a := [3; 20; 37; 54]; b := [0; 5; 10; 15] |}.

Definition st_2x3 : State :=
  {| streamLength := (0, 0); histogram := []; approx_histogram := [];
     sketch := [[0; 0; 0]; [0; 0; 0]]; stopping_condition := false |}.

(** A state of the 1 x 1 sketch with parameters [a = [1, 1]], [b = [0, 0]]:
    odd items have sign [+1], even items sign [-1]. *)
Definition G_1x1 : Globals :=
  {| D := 1; W := 1; left := 1; right := 9; K := 1; p := 8191;
     a := [1; 1]; b := [0; 0] |}.

Definition st_1x1 : State :=
  {| streamLength := (0, 0); histogram := []; approx_histogram := [];
     sketch := [[0]]; stopping_condition := false |}.


(** ** Definitions used to state further properties *)

(** the state after the batches of a stream, in order *)
Definition ingest (G : Globals) (stream : list (list Z)) (st : State) : State :=
  fold_left (fun st batch => process_batch G batch st) stream st.

(** the estimate computed for item [u] from a sketch *)
Definition estimate (G : Globals) (sk : list (list Z)) (u : Z) : float64 :=
  np_median (approx_freq_list G sk u).

(** the sum of [w item count] over the entries of a dictionary *)
Definition dict_sum (w : Z -> Z -> Z) (d : dict Z) : Z :=
  foldr (fun kv acc => w kv.1 kv.2 + acc) 0 d.

(** what [count] occurrences of [item] add to the cell [(j, c)] *)
Definition contribution (G : Globals) (j c item count : Z) : Z :=
  if h_hash G item (np_get (a G) j) (np_get (b G) j) =? c
  then g_hash G item (np_get (a G) (j + D G)) (np_get (b G) (j + D G)) * count
  else 0.

(** a sketch of [D] rows and [W] columns *)
Definition sketch_shape (G : Globals) (sk : list (list Z)) : Prop :=
  List.map (@length Z) sk = replicate (Z.to_nat (D G)) (Z.to_nat (W G)).

(** the number of items counted by a histogram *)
Definition total_count (d : dict Z) : Z := dict_sum (fun _ m => m) d.

(** what a list of cell updates adds to the cell [(j, c)] *)
Definition ops_sum (j c : Z) (ops : list (Z * Z * Z)) : Z :=
  foldr (fun o acc => (if (o.1.1 =? j) && (o.1.2 =? c) then o.2 else 0) + acc) 0 ops.

(** the cell [(j, c)] exists in the sketch *)
Definition in_range (sk : list (list Z)) (j c : Z) : Prop :=
  exists n, List.map (@length Z) sk !! Z.to_nat j = Some n /\ (Z.to_nat c < n)%nat.

(** the number of lines that [n] loop turns print *)
Definition lines_added (printing : bool) (n : nat) : nat :=
  if printing then n else 0%nat.

(** *** More example data *)

(** two rows, three columns, all parameters [a] equal to 1 and [b] to 0:
    the bucket of [x] is [x mod 3] in both rows *)
Definition G_plain : Globals :=
  {| D := 2; W := 3; left := 1; right := 9; K := 1; p := 8191;
     a := [1; 1; 1; 1]; b := [0; 0; 0; 0] |}.

(** the globals of the 1 x 1 example with [K = 0] and with [K = 5] *)
Definition G_1x1_K0 : Globals :=
  {| D := 1; W := 1; left := 1; right := 9; K := 0; p := 8191;
     a := [1; 1]; b := [0; 0] |}.

Definition G_1x1_K5 : Globals :=
  {| D := 1; W := 1; left := 1; right := 9; K := 5; p := 8191;
     a := [1; 1]; b := [0; 0] |}.

(** * Properties *)

(** ** Dictionaries *)

Lemma dict_get_set {V : Type} (d : dict V) (k k' : Z) (v : V) :
  dict_get (dict_set d k v) k' = if k =? k' then Some v else dict_get d k'.
Proof.
  induction d as [|[k0 v0] d IH]; simpl.
  - reflexivity.
  - destruct (k0 =? k) eqn:E0; simpl.
    + apply Z.eqb_eq in E0; subst k0.
      destruct (k =? k'); reflexivity.
    + rewrite IH. destruct (k0 =? k') eqn:E1; [|reflexivity].
      apply Z.eqb_eq in E1; subst k0. rewrite Z.eqb_sym, E0. reflexivity.
Qed.

Lemma dict_keys_set_in {V : Type} (d : dict V) (k : Z) (c v : V) :
  dict_get d k = Some c -> dict_keys (dict_set d k v) = dict_keys d.
Proof.
  induction d as [|[k0 v0] d IH]; simpl; [discriminate|].
  destruct (k0 =? k); simpl; [reflexivity|].
  intros H. f_equal. apply IH, H.
Qed.

Lemma dict_keys_set_fresh {V : Type} (d : dict V) (k : Z) (v : V) :
  dict_get d k = None -> dict_keys (dict_set d k v) = dict_keys d ++ [k].
Proof.
  induction d as [|[k0 v0] d IH]; simpl; [reflexivity|].
  destruct (k0 =? k); simpl; [discriminate|].
  intros H. f_equal. apply IH, H.
Qed.

Lemma dict_get_None_keys {V : Type} (d : dict V) (k : Z) :
  dict_get d k = None <-> ~ In k (dict_keys d).
Proof.
  induction d as [|[k0 v0] d IH]; simpl.
  - tauto.
  - destruct (k0 =? k) eqn:E.
    + apply Z.eqb_eq in E. split; [discriminate | tauto].
    + apply Z.eqb_neq in E. tauto.
Qed.

(** ** Commuting, additive actions and [reduceByKey] *)

Section Actions.
Context {St : Type} (act : Z -> Z -> St -> St).
Hypothesis act_comm : forall k v k' v' s,
  act k v (act k' v' s) = act k' v' (act k v s).
Hypothesis act_merge : forall k v v' s,
  act k v (act k v' s) = act k (v' + v) s.

Lemma apply_all_act kvs k v s :
  apply_all act kvs (act k v s) = act k v (apply_all act kvs s).
Proof using act_comm.
  revert s. induction kvs as [|[k0 v0] kvs IH]; intros s; simpl.
  - reflexivity.
  - rewrite act_comm. apply IH.
Qed.

Lemma apply_all_dict_add d k v s :
  apply_all act (dict_add d k v) s = act k v (apply_all act d s).
Proof using act_comm act_merge.
  unfold dict_add. revert s.
  induction d as [|[k0 v0] d IH]; intros s; simpl.
  - reflexivity.
  - destruct (k0 =? k) eqn:E; simpl.
    + apply Z.eqb_eq in E; subst k0.
      rewrite <- act_merge. apply apply_all_act.
    + specialize (IH (act k0 v0 s)).
      destruct (dict_get d k); simpl; exact IH.
Qed.

Lemma apply_all_fold_dict_add kvs d s :
  apply_all act (fold_left (fun d kv => dict_add d kv.1 kv.2) kvs d) s
  = apply_all act kvs (apply_all act d s).
Proof using act_comm act_merge.
  revert d. induction kvs as [|[k v] kvs IH]; intros d; simpl.
  - reflexivity.
  - rewrite IH, apply_all_dict_add. reflexivity.
Qed.

Lemma apply_all_reduceByKey kvs s :
  apply_all act (reduceByKey_collectAsMap kvs) s = apply_all act kvs s.
Proof using act_comm act_merge.
  unfold reduceByKey_collectAsMap. rewrite apply_all_fold_dict_add. reflexivity.
Qed.

End Actions.

(** ** The algebra of cell updates *)

Lemma sketch_add_comm j c v j' c' v' sk :
  sketch_add j c v (sketch_add j' c' v' sk)
  = sketch_add j' c' v' (sketch_add j c v sk).
Proof.
  unfold sketch_add.
  destruct (decide (Z.to_nat j = Z.to_nat j')) as [->|Hj].
  - rewrite !list_alter_alter_eq. apply list_alter_ext; [|reflexivity].
    intros row _. simpl.
    destruct (decide (Z.to_nat c = Z.to_nat c')) as [->|Hc].
    + rewrite !list_alter_alter_eq. apply list_alter_ext; [|reflexivity].
      intros x _. simpl. lia.
    + apply list_alter_alter_ne, Hc.
  - apply list_alter_alter_ne, Hj.
Qed.

Lemma sketch_add_merge j c v v' sk :
  sketch_add j c v (sketch_add j c v' sk) = sketch_add j c (v' + v) sk.
Proof.
  unfold sketch_add. rewrite list_alter_alter_eq.
  apply list_alter_ext; [|reflexivity]. intros row _. simpl.
  rewrite list_alter_alter_eq. apply list_alter_ext; [|reflexivity].
  intros x _. simpl. lia.
Qed.

Lemma apply_ops_app ops ops' sk :
  apply_ops (ops ++ ops') sk = apply_ops ops' (apply_ops ops sk).
Proof. apply fold_left_app. Qed.

Lemma apply_ops_Permutation ops ops' :
  Permutation ops ops' -> forall sk, apply_ops ops sk = apply_ops ops' sk.
Proof.
  induction 1 as [|o l l' _ IH|o o' l|l l' l'' _ IH1 _ IH2]; intros sk; simpl.
  - reflexivity.
  - apply IH.
  - rewrite sketch_add_comm. reflexivity.
  - rewrite IH1. apply IH2.
Qed.

Lemma apply_ops_cons o ops sk :
  apply_ops (o :: ops) sk = apply_ops ops (sketch_add o.1.1 o.1.2 o.2 sk).
Proof. reflexivity. Qed.

Lemma apply_ops_sketch_add ops j c v sk :
  apply_ops ops (sketch_add j c v sk) = sketch_add j c v (apply_ops ops sk).
Proof.
  revert sk. induction ops as [|o ops IH]; intros sk; simpl.
  - reflexivity.
  - rewrite sketch_add_comm. apply IH.
Qed.

Lemma flat_map_cons_split {A B : Type} (g : A -> B) (h : A -> list B) (l : list A) :
  Permutation (flat_map (fun x => g x :: h x) l) (List.map g l ++ flat_map h l).
Proof.
  induction l as [|x l IH]; simpl.
  - reflexivity.
  - apply perm_skip. rewrite IH.
    rewrite !app_assoc. apply Permutation_app_tail, Permutation_app_comm.
Qed.

Lemma flat_map_swap {A B C : Type} (f : A -> B -> C) (js : list A) (xs : list B) :
  Permutation (flat_map (fun j => List.map (f j) xs) js)
              (flat_map (fun x => List.map (fun j => f j x) js) xs).
Proof.
  induction xs as [|x xs IH]; simpl.
  - induction js; simpl; auto.
  - rewrite <- IH. apply flat_map_cons_split.
Qed.

(** ** Updates of the sketch matrix *)

Section SketchUpdates.
Variable G : Globals.

Lemma fold_left_apply_ops {A : Type} (F : A -> list (list Z) -> list (list Z))
  (opsf : A -> list (Z * Z * Z)) (l : list A) :
  (forall x sk, F x sk = apply_ops (opsf x) sk) ->
  forall sk, fold_left (fun sk x => F x sk) l sk = apply_ops (flat_map opsf l) sk.
Proof.
  intros HF. induction l as [|x l IH]; intros sk; simpl.
  - reflexivity.
  - rewrite IH, HF, apply_ops_app. reflexivity.
Qed.

Lemma Update_ops item weight sk :
  Update G item weight sk = apply_ops (item_ops G weight item) sk.
Proof.
  unfold Update, item_ops, apply_ops. revert sk.
  induction (np_arange 0 (D G)) as [|j l IH]; intros sk; simpl.
  - reflexivity.
  - apply IH.
Qed.

Lemma fold_Update_ops (l : list (Z * Z)) sk :
  fold_left (fun sk im => Update G im.1 im.2 sk) l sk
  = apply_ops (flat_map (fun im => item_ops G im.2 im.1) l) sk.
Proof.
  apply (fold_left_apply_ops (fun im => Update G im.1 im.2)).
  intros. apply Update_ops.
Qed.

(** [count_sketch] makes, in some order, one cell update per occurrence
    of an item and per row. *)
Lemma count_sketch_ops f_batch sk :
  count_sketch G f_batch sk = apply_ops (flat_map (item_ops G 1) f_batch) sk.
Proof.
  unfold count_sketch.
  rewrite (fold_left_apply_ops _
             (fun j => List.map (fun x => cell_op G 1 x j) f_batch)).
  - apply apply_ops_Permutation. unfold item_ops.
    apply (flat_map_swap (fun j x => cell_op G 1 x j)).
  - intros j sk'. unfold sketch_dict.
    change (fold_left (fun s kv => sketch_add j kv.1 kv.2 s) ?d sk')
      with (apply_all (sketch_add j) d sk').
    rewrite apply_all_reduceByKey
      by (intros; first [apply sketch_add_comm | apply sketch_add_merge]).
    clear. revert sk'. induction f_batch as [|x l IH]; intros sk'; simpl.
    + reflexivity.
    + rewrite Z.mul_1_r. apply IH.
Qed.

Lemma Update_comm k v k' v' sk :
  Update G k v (Update G k' v' sk) = Update G k' v' (Update G k v sk).
Proof.
  rewrite !Update_ops, <- !apply_ops_app.
  apply apply_ops_Permutation, Permutation_app_comm.
Qed.

Lemma Update_merge k v v' sk :
  Update G k v (Update G k v' sk) = Update G k (v' + v) sk.
Proof.
  rewrite !Update_ops. unfold item_ops. revert sk.
  induction (np_arange 0 (D G)) as [|j l IH]; intros sk.
  - reflexivity.
  - rewrite !map_cons, !apply_ops_cons. unfold cell_op at 1 3 5. simpl.
    rewrite (apply_ops_sketch_add _ _ _ _ sk), sketch_add_merge.
    rewrite !apply_ops_sketch_add, IH, Z.mul_add_distr_l. reflexivity.
Qed.

End SketchUpdates.

(** ** What [reduceByKey] collects *)

Lemma dict_get_add d k0 v0 k :
  dict_get (dict_add d k0 v0) k
  = if k0 =? k then Some (default 0 (dict_get d k0) + v0) else dict_get d k.
Proof.
  unfold dict_add.
  destruct (dict_get d k0) eqn:E; rewrite dict_get_set; reflexivity.
Qed.

Lemma weight_of_no_key k kvs : has_key k kvs = false -> weight_of k kvs = 0.
Proof.
  induction kvs as [|[k0 v0] kvs IH]; simpl; [reflexivity|].
  destruct (k0 =? k); simpl; [discriminate | exact IH].
Qed.

Lemma dict_get_fold_add kvs d k :
  dict_get (fold_left (fun d kv => dict_add d kv.1 kv.2) kvs d) k
  = if has_key k kvs then Some (default 0 (dict_get d k) + weight_of k kvs)
    else dict_get d k.
Proof.
  revert d. induction kvs as [|[k0 v0] kvs IH]; intros d; simpl.
  - reflexivity.
  - rewrite IH, dict_get_add.
    destruct (k0 =? k) eqn:E; simpl.
    + apply Z.eqb_eq in E; subst k0.
      destruct (has_key k kvs) eqn:Hk; simpl; f_equal; [lia|].
      rewrite (weight_of_no_key _ _ Hk). lia.
    + reflexivity.
Qed.

Lemma NoDup_keys_add d k v :
  NoDup (dict_keys d) -> NoDup (dict_keys (dict_add d k v)).
Proof.
  intros Hd. unfold dict_add. destruct (dict_get d k) eqn:E.
  - erewrite dict_keys_set_in by eassumption. exact Hd.
  - rewrite dict_keys_set_fresh by assumption.
    apply NoDup_app. split; [assumption|]. split; [|apply NoDup_singleton].
    intros x Hx Hk. apply list_elem_of_In in Hk as [<-|[]].
    apply dict_get_None_keys in E. apply E, list_elem_of_In, Hx.
Qed.

Lemma NoDup_keys_fold_add kvs d :
  NoDup (dict_keys d) ->
  NoDup (dict_keys (fold_left (fun d kv => dict_add d kv.1 kv.2) kvs d)).
Proof.
  revert d. induction kvs as [|kv kvs IH]; intros d Hd; simpl.
  - exact Hd.
  - apply IH, NoDup_keys_add, Hd.
Qed.

Lemma dict_In_get {V : Type} (d : dict V) (k : Z) (v : V) :
  NoDup (dict_keys d) -> In (k, v) d <-> dict_get d k = Some v.
Proof.
  induction d as [|[k0 v0] d IH]; simpl; intros Hd.
  - split; [tauto | discriminate].
  - apply NoDup_cons in Hd as [Hk Hd]. specialize (IH Hd).
    destruct (k0 =? k) eqn:E.
    + apply Z.eqb_eq in E; subst k0. split.
      * intros [H|H]; [congruence|]. exfalso. apply Hk.
        apply list_elem_of_In, in_map_iff. exists (k, v). auto.
      * intros H. left. congruence.
    + apply Z.eqb_neq in E. rewrite <- IH. split; [|tauto].
      intros [H|H]; [congruence | exact H].
Qed.

Lemma has_key_ones k (l : list Z) :
  has_key k (List.map (fun s => (s, 1)) l) = negb (multiplicity k l =? 0).
Proof.
  unfold multiplicity. induction l as [|x l IH]; [reflexivity|].
  cbn [List.map has_key existsb fst].
  destruct (Z.eq_dec x k) as [->|Hx].
  - rewrite Z.eqb_refl, count_occ_cons_eq by reflexivity.
    symmetry. apply negb_true_iff, Z.eqb_neq. lia.
  - rewrite count_occ_cons_neq by assumption.
    apply Z.eqb_neq in Hx. rewrite Hx. exact IH.
Qed.

Lemma weight_of_ones k (l : list Z) :
  weight_of k (List.map (fun s => (s, 1)) l) = multiplicity k l.
Proof.
  unfold multiplicity. induction l as [|x l IH]; [reflexivity|].
  cbn [List.map weight_of foldr fst snd]. fold (weight_of k).
  destruct (Z.eq_dec x k) as [->|Hx].
  - rewrite Z.eqb_refl, count_occ_cons_eq by reflexivity.
    unfold weight_of in IH. rewrite IH. lia.
  - rewrite count_occ_cons_neq by assumption.
    apply Z.eqb_neq in Hx. rewrite Hx. exact IH.
Qed.

(** [batch_items] holds each distinct item of the batch once, with the
    number of its occurrences. *)
Lemma batch_items_get (l : list Z) k :
  dict_get (reduceByKey_collectAsMap (List.map (fun s => (s, 1)) l)) k
  = if multiplicity k l =? 0 then None else Some (multiplicity k l).
Proof.
  unfold reduceByKey_collectAsMap.
  rewrite dict_get_fold_add, has_key_ones, weight_of_ones.
  destruct (multiplicity k l =? 0); reflexivity.
Qed.

Lemma batch_items_NoDup (l : list Z) :
  NoDup (dict_keys (reduceByKey_collectAsMap (List.map (fun s => (s, 1)) l))).
Proof. apply NoDup_keys_fold_add. constructor. Qed.

Lemma batch_items_In (l : list Z) item m :
  In (item, m) (reduceByKey_collectAsMap (List.map (fun s => (s, 1)) l))
  <-> 0 < m /\ m = multiplicity item l.
Proof.
  rewrite dict_In_get by apply batch_items_NoDup.
  rewrite batch_items_get.
  assert (0 <= multiplicity item l) by (unfold multiplicity; lia).
  destruct (multiplicity item l =? 0) eqn:E.
  - apply Z.eqb_eq in E. split; [discriminate | lia].
  - apply Z.eqb_neq in E. split.
    + intros [= <-]. lia.
    + intros [_ ->]. reflexivity.
Qed.

Lemma histogram_update_get (l : list Z) h k :
  dict_get
    (fold_left (fun h kv => dict_add h kv.1 kv.2)
               (reduceByKey_collectAsMap (List.map (fun s => (s, 1)) l)) h) k
  = if multiplicity k l =? 0 then dict_get h k
    else Some (default 0 (dict_get h k) + multiplicity k l).
Proof.
  rewrite dict_get_fold_add.
  set (items := reduceByKey_collectAsMap _).
  assert (Hget := batch_items_get l k). fold items in Hget.
  assert (Hnd := batch_items_NoDup l). fold items in Hnd.
  clearbody items.
  assert (Hw : forall (d : dict Z), NoDup (dict_keys d) ->
            has_key k d = match dict_get d k with Some _ => true | None => false end
            /\ weight_of k d = default 0 (dict_get d k)).
  { clear. induction d as [|[k0 v0] d IH]; simpl; intros Hd.
    - split; reflexivity.
    - apply NoDup_cons in Hd as [Hk Hd]. destruct (IH Hd) as [IH1 IH2].
      destruct (k0 =? k) eqn:E; simpl; [|split; assumption].
      apply Z.eqb_eq in E; subst k0. split; [reflexivity|].
      rewrite IH2.
      assert (dict_get d k = None) as ->; [|simpl; lia].
      apply dict_get_None_keys. intros H. apply Hk, list_elem_of_In, H. }
  destruct (Hw items Hnd) as [-> ->]. rewrite Hget.
  destruct (multiplicity k l =? 0); reflexivity.
Qed.

(** ** [count_sketch] against [Update] *)

Lemma count_sketch_per_occurrence (G : Globals) (l : list Z) sk :
  count_sketch G l sk = fold_left (fun sk x => Update G x 1 sk) l sk.
Proof.
  rewrite count_sketch_ops.
  symmetry. apply (fold_left_apply_ops (fun x => Update G x 1)).
  intros. apply Update_ops.
Qed.

Lemma count_sketch_per_item (G : Globals) (l : list Z) sk :
  count_sketch G l sk
  = fold_left (fun sk im => Update G im.1 im.2 sk)
              (reduceByKey_collectAsMap (List.map (fun s => (s, 1)) l)) sk.
Proof.
  rewrite count_sketch_per_occurrence.
  change (fold_left (fun sk im => Update G im.1 im.2 sk) ?d sk)
    with (apply_all (Update G) d sk).
  rewrite apply_all_reduceByKey
    by (intros; first [apply Update_comm | apply Update_merge]).
  unfold apply_all. revert sk.
  induction l as [|x l IH]; intros sk; simpl; [reflexivity | apply IH].
Qed.

Lemma count_sketch_split (G : Globals) (l b1 b2 : list Z) sk :
  Permutation (b1 ++ b2) l ->
  count_sketch G b2 (count_sketch G b1 sk) = count_sketch G l sk.
Proof.
  intros Hsplit.
  rewrite !count_sketch_ops, <- apply_ops_app, <- flat_map_app.
  apply apply_ops_Permutation, Permutation_flat_map, Hsplit.
Qed.

(** C4.  The sketch that [count_sketch] builds from a batch is the one
    obtained by [Update(item, 1)] once per occurrence, and the one
    obtained by [Update(item, m)] once per distinct item with its
    multiplicity [m] (the entries of [batch_items]); and when the batch is
    split in any way into two sub-batches, processing one after the other
    gives the sketch of the whole batch. *)
Theorem count_sketch_additive (G : Globals) (f_batch b1 b2 : list Z)
  (sk : list (list Z)) :
  Permutation (b1 ++ b2) f_batch ->
  let batch_items := reduceByKey_collectAsMap (List.map (fun s => (s, 1)) f_batch) in
  count_sketch G f_batch sk = fold_left (fun sk x => Update G x 1 sk) f_batch sk
  /\ (NoDup (dict_keys batch_items)
      /\ (forall item m, In (item, m) batch_items
                         <-> 0 < m /\ m = multiplicity item f_batch)
      /\ count_sketch G f_batch sk
         = fold_left (fun sk im => Update G im.1 im.2 sk) batch_items sk)
  /\ count_sketch G b2 (count_sketch G b1 sk) = count_sketch G f_batch sk.
Proof.
  intros Hsplit batch_items.
  split; [apply count_sketch_per_occurrence|]. split; [split; [|split]|].
  - apply batch_items_NoDup.
  - apply batch_items_In.
  - apply count_sketch_per_item.
  - apply count_sketch_split, Hsplit.
Qed.

Lemma count_sketch_additive_witness :
  Permutation ([1; 2] ++ [1]) [2; 1; 1]
  /\ count_sketch G_2x3 [1] (count_sketch G_2x3 [1; 2] [[0; 0; 0]; [0; 0; 0]])
     = count_sketch G_2x3 [2; 1; 1] [[0; 0; 0]; [0; 0; 0]].
Proof.
  assert (H : Permutation ([1; 2] ++ [1]) [2; 1; 1]) by apply perm_swap.
  split; [exact H|].
  apply (count_sketch_additive G_2x3 [2; 1; 1] [1; 2] [1] _ H).
Defined.

(** ** [process_batch] *)

Lemma process_batch_skip (G : Globals) batch st :
  (THRESHOLD <=? (streamLength st).1) = true -> process_batch G batch st = st.
Proof. intros H. unfold process_batch. rewrite H. reflexivity. Qed.

Lemma process_batch_run (G : Globals) batch st :
  (THRESHOLD <=? (streamLength st).1) = false ->
  let admitted := List.filter (in_interval G) batch in
  process_batch G batch st
  = {| streamLength := ((streamLength st).1 + Z.of_nat (length batch),
                        (streamLength st).2 + Z.of_nat (length admitted));
       histogram :=
         fold_left (fun h kv => dict_add h kv.1 kv.2)
           (reduceByKey_collectAsMap (List.map (fun s => (s, 1)) admitted))
           (histogram st);
       approx_histogram := approx_histogram st;
       sketch := count_sketch G admitted (sketch st);
       stopping_condition :=
         if THRESHOLD <=? (streamLength st).1 + Z.of_nat (length batch)
         then true else stopping_condition st |}.
Proof. intros H. unfold process_batch. rewrite H. reflexivity. Qed.

(** ** Counters during ingestion *)

Lemma g_hash_sign (G : Globals) x a b : g_hash G x a b = 1 \/ g_hash G x a b = -1.
Proof.
  unfold g_hash.
  pose proof (Z.mod_pos_bound ((a * x + b) mod p G) 2 ltac:(lia)). lia.
Qed.

Lemma item_ops_units (G : Globals) (l : list Z) :
  Forall (fun o : Z * Z * Z => o.2 = 1 \/ o.2 = -1) (flat_map (item_ops G 1) l).
Proof.
  apply Forall_forall. intros o Ho.
  apply list_elem_of_In, in_flat_map in Ho as (x & _ & Ho).
  unfold item_ops in Ho. apply in_map_iff in Ho as (j & <- & _).
  unfold cell_op. cbn [snd]. rewrite Z.mul_1_r. apply g_hash_sign.
Qed.

Lemma compute_approx_histogram_frame (G : Globals) st :
  let st' := compute_approx_histogram G st in
  streamLength st' = streamLength st /\ histogram st' = histogram st
  /\ sketch st' = sketch st /\ stopping_condition st' = stopping_condition st.
Proof.
  unfold compute_approx_histogram.
  generalize (dict_keys (histogram st)) as keys.
  intros keys. revert st. induction keys as [|u keys IH]; intros st; simpl.
  - repeat split.
  - destruct (IH (set_approx st u (np_median (approx_freq_list G (sketch st) u))))
      as (H1 & H2 & H3 & H4).
    rewrite H1, H2, H3, H4. repeat split.
Qed.

Lemma multiplicity_nonneg x l : 0 <= multiplicity x l.
Proof. unfold multiplicity. lia. Qed.

Example main_init_1x1 :
  main_init 1 1 1 9 1 (fun _ => 0) (fun _ => 0) = Ok (G_1x1, st_1x1).
Proof. reflexivity. Qed.

(** A sketch cell goes from 1 back to 0 when an item of sign [-1] follows
    an item of sign [+1] in the same bucket: its magnitude decreases. *)
Lemma sketch_cell_shrinks :
  sketch (process_batch G_1x1 [1] st_1x1) = [[1]]
  /\ sketch (process_batch G_1x1 [2] (process_batch G_1x1 [1] st_1x1)) = [[0]]
  /\ Z.abs (sketch_get (sketch (process_batch G_1x1 [2]
                                  (process_batch G_1x1 [1] st_1x1))) 0 0)
     < Z.abs (sketch_get (sketch (process_batch G_1x1 [1] st_1x1)) 0 0).
Proof. vm_compute. repeat split. Qed.

(** ** Indices stay in range *)

Lemma h_hash_range (G : Globals) x a b :
  0 < W G -> 0 <= h_hash G x a b < W G.
Proof. intros HW. unfold h_hash. apply Z.mod_pos_bound, HW. Qed.

Lemma sketch_add_shape j c v (sk : list (list Z)) :
  List.map (@length Z) (sketch_add j c v sk) = List.map (@length Z) sk.
Proof.
  unfold sketch_add. generalize (Z.to_nat j) as n.
  induction sk as [|row sk IH]; intros [|n]; simpl; try reflexivity.
  - rewrite length_alter. reflexivity.
  - f_equal. apply IH.
Qed.

Lemma count_sketch_shape (G : Globals) l (sk : list (list Z)) :
  List.map (@length Z) (count_sketch G l sk) = List.map (@length Z) sk.
Proof.
  rewrite count_sketch_ops. generalize (flat_map (item_ops G 1) l) as ops.
  intros ops. revert sk. induction ops as [|o ops IH]; intros sk; simpl.
  - reflexivity.
  - rewrite IH. apply sketch_add_shape.
Qed.

(** ** True frequencies are positive *)

Lemma histogram_positive (G : Globals) batch st :
  (forall k c, dict_get (histogram st) k = Some c -> 0 < c) ->
  forall k c, dict_get (histogram (process_batch G batch st)) k = Some c -> 0 < c.
Proof.
  intros Hst k c.
  destruct (THRESHOLD <=? (streamLength st).1) eqn:E.
  - rewrite (process_batch_skip G batch st E). apply Hst.
  - rewrite (process_batch_run G batch st E). cbn [histogram].
    rewrite histogram_update_get.
    pose proof (multiplicity_nonneg k (List.filter (in_interval G) batch)).
    destruct (multiplicity k _ =? 0) eqn:Em.
    + apply Hst.
    + apply Z.eqb_neq in Em. intros [= <-].
      destruct (dict_get (histogram st) k) as [c0|] eqn:Ek; simpl.
      * specialize (Hst k c0 Ek). lia.
      * lia.
Qed.

(** ** The median of the row estimates *)

Lemma insert_sorted_Permutation x l : Permutation (insert_sorted x l) (x :: l).
Proof.
  induction l as [|y l IH]; simpl.
  - reflexivity.
  - destruct (x <=? y); [reflexivity|].
    rewrite IH. apply perm_swap.
Qed.

Lemma np_sort_Permutation l : Permutation (np_sort l) l.
Proof.
  induction l as [|x l IH]; simpl.
  - reflexivity.
  - rewrite insert_sorted_Permutation, IH. reflexivity.
Qed.

Lemma insert_sorted_Sorted x l : Sorted Z.le l -> Sorted Z.le (insert_sorted x l).
Proof.
  induction l as [|y l IH]; simpl; intros Hl.
  - repeat constructor.
  - destruct (x <=? y) eqn:E.
    + constructor; [exact Hl|]. constructor. lia.
    + apply Sorted_inv in Hl as [Hl Hy]. constructor; [apply IH, Hl|].
      destruct l as [|z l]; simpl.
      * constructor. lia.
      * destruct (x <=? z); constructor; [lia|].
        inversion Hy; assumption.
Qed.

Lemma np_sort_Sorted l : Sorted Z.le (np_sort l).
Proof.
  induction l as [|x l IH]; simpl.
  - constructor.
  - apply insert_sorted_Sorted, IH.
Qed.

Lemma take_1_drop {A : Type} (l : list A) i x :
  l !! i = Some x -> take 1 (drop i l) = [x].
Proof. intros H. rewrite (drop_S _ _ _ H). reflexivity. Qed.

Lemma take_2_drop {A : Type} (l : list A) i x y :
  l !! i = Some x -> l !! S i = Some y -> take 2 (drop i l) = [x; y].
Proof.
  intros Hx Hy. rewrite (drop_S _ _ _ Hx), (drop_S _ _ _ Hy). reflexivity.
Qed.

Lemma np_median_middle (l : list Z) :
  l <> [] -> fl_equiv (np_median l) (middle (np_sort l)).
Proof.
  intros Hl. unfold np_median, middle.
  set (s := np_sort l).
  assert (Hlen : (0 < length s)%nat).
  { unfold s. rewrite (Permutation_length (np_sort_Permutation l)).
    destruct l; [congruence | simpl; lia]. }
  clearbody s. clear l Hl.
  set (n := length s) in *.
  assert (Hdiv : (n = 2 * (n / 2) + n mod 2)%nat) by (apply Nat.div_mod_eq).
  assert (Hmod : (n mod 2 < 2)%nat) by (apply Nat.mod_upper_bound; lia).
  destruct (n mod 2 =? 1)%nat eqn:E.
  - apply Nat.eqb_eq in E.
    destruct (nth_lookup_or_length s (n / 2)%nat 0) as [Hx|Hx]; [|fold n in Hx; lia].
    rewrite (take_1_drop _ _ _ Hx).
    assert (Nat.odd n = true) as ->.
    { apply Nat.odd_spec. exists (n / 2)%nat. lia. }
    simpl. unfold fl_sum. simpl. field.
  - apply Nat.eqb_neq in E.
    assert (Hn2 : (S (n / 2 - 1) = n / 2)%nat) by lia.
    destruct (nth_lookup_or_length s (n / 2 - 1)%nat 0) as [Hx|Hx]; [|fold n in Hx; lia].
    destruct (nth_lookup_or_length s (n / 2)%nat 0) as [Hy|Hy]; [|fold n in Hy; lia].
    rewrite <- Hn2 in Hy at 1.
    rewrite (take_2_drop _ _ _ _ Hx Hy).
    assert (Nat.odd n = false) as ->.
    { apply not_true_is_false. intros Ho. apply Nat.odd_spec in Ho as [m Hm]. lia. }
    simpl. unfold fl_sum. simpl. field.
Qed.

Lemma compute_approx_histogram_fold (G : Globals) (u : Z) (keys : list Z) st :
  let st' :=
    fold_left
      (fun st u => set_approx st u (np_median (approx_freq_list G (sketch st) u)))
      keys st in
  sketch st' = sketch st
  /\ dict_get (approx_histogram st') u
     = if in_dec Z.eq_dec u keys
       then Some (np_median (approx_freq_list G (sketch st) u))
       else dict_get (approx_histogram st) u.
Proof.
  revert st. induction keys as [|k keys IH]; intros st; simpl.
  - split; reflexivity.
  - destruct (IH (set_approx st k (np_median (approx_freq_list G (sketch st) k))))
      as [Hs Hg].
    cbn [sketch set_approx approx_histogram] in Hs, Hg.
    split; [exact Hs|]. rewrite Hg.
    destruct (in_dec Z.eq_dec u keys) as [Hin|Hin].
    + destruct (Z.eq_dec k u); reflexivity.
    + rewrite dict_get_set.
      destruct (Z.eq_dec k u) as [->|Hk].
      * rewrite Z.eqb_refl. reflexivity.
      * apply Z.eqb_neq in Hk. rewrite Hk. reflexivity.
Qed.

Lemma compute_approx_histogram_get (G : Globals) st u :
  In u (dict_keys (histogram st)) ->
  dict_get (approx_histogram (compute_approx_histogram G st)) u
  = Some (np_median (approx_freq_list G (sketch st) u)).
Proof.
  intros Hu. unfold compute_approx_histogram.
  destruct (compute_approx_histogram_fold G u (dict_keys (histogram st)) st)
    as [_ ->].
  destruct (in_dec Z.eq_dec u (dict_keys (histogram st))); [reflexivity | tauto].
Qed.

Lemma length_approx_freq_list (G : Globals) sk u :
  length (approx_freq_list G sk u) = Z.to_nat (D G).
Proof.
  unfold approx_freq_list, np_arange.
  rewrite !length_map, length_seq. f_equal. lia.
Qed.

Lemma odd_to_nat z : 0 <= z -> Nat.odd (Z.to_nat z) = Z.odd z.
Proof.
  intros Hz. destruct (Z.odd z) eqn:E.
  - apply Z.odd_spec in E as [m Hm]. apply Nat.odd_spec.
    exists (Z.to_nat m). lia.
  - apply not_true_is_false. intros Ho. apply Nat.odd_spec in Ho as [m Hm].
    assert (Z.odd z = true); [|congruence].
    apply Z.odd_spec. exists (Z.of_nat m). lia.
Qed.

(** C5.  With [D > 0] rows, for every item [u] and every sketch, the
    estimate, [np.median] of the [D] values
    [g_hash(u, a[j+D], b[j+D]) * sketch[j, h_hash(u, a[j], b[j])]], is the
    median of these values: when they are put in ascending order, it is
    the middle one for odd [D] and the arithmetic mean of the two middle
    ones for even [D].  This is the value stored in [approx_histogram] for
    each item of the histogram. *)
Theorem estimate_is_median (G : Globals) (st : State) (u : Z) (s : list Z) :
  0 < D G ->
  Permutation s
    (List.map
       (fun j => g_hash G u (np_get (a G) (j + D G)) (np_get (b G) (j + D G))
                 * sketch_get (sketch st) j
                     (h_hash G u (np_get (a G) j) (np_get (b G) j)))
       (np_arange 0 (D G))) ->
  Sorted Z.le s ->
  fl_equiv (np_median (approx_freq_list G (sketch st) u))
    (if Z.odd (D G) then of_int (nth (Z.to_nat (D G / 2)) s 0)
     else fin ((inject_Z (nth (Z.to_nat (D G / 2 - 1)) s 0%Z)
                + inject_Z (nth (Z.to_nat (D G / 2)) s 0%Z)) / 2)%Q)
  /\ (In u (dict_keys (histogram st)) ->
      dict_get (approx_histogram (compute_approx_histogram G st)) u
      = Some (np_median (approx_freq_list G (sketch st) u))).
Proof.
  intros HD Hperm Hsorted.
  fold (approx_freq_list G (sketch st) u) in Hperm.
  split; [|apply compute_approx_histogram_get].
  set (vals := approx_freq_list G (sketch st) u) in *.
  assert (Hs : s = np_sort vals).
  { apply (Sorted_unique Z.le); [exact Hsorted | apply np_sort_Sorted |].
    rewrite Hperm. symmetry. apply np_sort_Permutation. }
  assert (Hlen : length (np_sort vals) = Z.to_nat (D G)).
  { rewrite (Permutation_length (np_sort_Permutation vals)).
    apply length_approx_freq_list. }
  assert (Hne : vals <> []).
  { intros E. pose proof (length_approx_freq_list G (sketch st) u) as H.
    fold vals in H. rewrite E in H. simpl in H. lia. }
  pose proof (np_median_middle vals Hne) as Hmid.
  unfold middle in Hmid. rewrite Hlen, <- Hs in Hmid.
  replace (Z.to_nat (D G) / 2)%nat with (Z.to_nat (D G / 2)) in Hmid
    by (rewrite Z2Nat.inj_div by lia; reflexivity).
  replace (Z.to_nat (D G / 2) - 1)%nat with (Z.to_nat (D G / 2 - 1)) in Hmid
    by (rewrite Z2Nat.inj_sub by lia; reflexivity).
  rewrite odd_to_nat in Hmid by lia. exact Hmid.
Qed.

Example main_init_2x3 :
  main_init 2 3 1 9 1 (fun i => 2 + 17 * Z.of_nat i) (fun i => 5 * Z.of_nat i)
  = Ok (G_2x3, st_2x3).
Proof. reflexivity. Qed.

(** After the batch 1, 1, 2, 3, 12, 3, 1 the two rows give the values 4
    and 3 for item 1: the estimate is their mean. *)
Lemma estimate_is_median_witness :
  0 < D G_2x3
  /\ Sorted Z.le [3; 4]
  /\ In 1 (dict_keys (histogram (process_batch G_2x3 [1; 1; 2; 3; 12; 3; 1] st_2x3)))
  /\ fl_equiv
       (np_median
          (approx_freq_list G_2x3
             (sketch (process_batch G_2x3 [1; 1; 2; 3; 12; 3; 1] st_2x3)) 1))
       (fin ((inject_Z 3 + inject_Z 4) / 2)%Q)
  /\ dict_get (approx_histogram
                 (compute_approx_histogram G_2x3
                    (process_batch G_2x3 [1; 1; 2; 3; 12; 3; 1] st_2x3))) 1
     = Some (np_median
               (approx_freq_list G_2x3
                  (sketch (process_batch G_2x3 [1; 1; 2; 3; 12; 3; 1] st_2x3)) 1)).
Proof.
  assert (HD : 0 < D G_2x3) by reflexivity.
  assert (Hs : Sorted Z.le [3; 4]) by (repeat constructor; discriminate).
  assert (Hin : In 1 (dict_keys (histogram (process_batch G_2x3
                                             [1; 1; 2; 3; 12; 3; 1] st_2x3))))
    by (vm_compute; tauto).
  assert (Hp : Permutation [3; 4]
                 (List.map
                    (fun j => g_hash G_2x3 1 (np_get (a G_2x3) (j + D G_2x3))
                                (np_get (b G_2x3) (j + D G_2x3))
                              * sketch_get
                                  (sketch (process_batch G_2x3
                                             [1; 1; 2; 3; 12; 3; 1] st_2x3)) j
                                  (h_hash G_2x3 1 (np_get (a G_2x3) j)
                                          (np_get (b G_2x3) j)))
                    (np_arange 0 (D G_2x3))))
    by (vm_compute; apply perm_swap).
  split; [exact HD|]. split; [exact Hs|]. split; [exact Hin|].
  destruct (estimate_is_median G_2x3
              (process_batch G_2x3 [1; 1; 2; 3; 12; 3; 1] st_2x3) 1 [3; 4]
              HD Hp Hs) as [H1 H2].
  split; [exact H1 | exact (H2 Hin)].
Defined.

(** With one row the estimate is the single value. *)
Example estimate_one_row :
  dict_get (approx_histogram
              (compute_approx_histogram G_1x1
                 (process_batch G_1x1 [1; 1; 3; 2] st_1x1))) 2
  = Some (fin (-2)).
Proof. reflexivity. Qed.

(** ** The ranking by true frequency *)

Section Ranking.
Context {A : Type} (key : A -> Z).

Lemma insert_desc_Permutation x l : Permutation (insert_desc key x l) (x :: l).
Proof.
  induction l as [|y l IH]; simpl.
  - reflexivity.
  - destruct (key x <? key y); [|reflexivity].
    rewrite IH. apply perm_swap.
Qed.

Lemma sorted_reverse_Permutation l : Permutation (sorted_reverse key l) l.
Proof.
  induction l as [|x l IH]; simpl.
  - reflexivity.
  - rewrite insert_desc_Permutation, IH. reflexivity.
Qed.

Lemma insert_desc_Sorted x l :
  Sorted (key_ge key) l -> Sorted (key_ge key) (insert_desc key x l).
Proof.
  unfold key_ge. induction l as [|y l IH]; simpl; intros Hl.
  - repeat constructor.
  - destruct (key x <? key y) eqn:E.
    + apply Sorted_inv in Hl as [Hl Hy]. constructor; [apply IH, Hl|].
      destruct l as [|z l]; simpl.
      * constructor. lia.
      * destruct (key x <? key z); constructor; [|lia].
        inversion Hy; assumption.
    + constructor; [exact Hl|]. constructor. lia.
Qed.

Lemma sorted_reverse_Sorted l : StronglySorted (key_ge key) (sorted_reverse key l).
Proof.
  apply Sorted_StronglySorted.
  - intros x y z. unfold key_ge. lia.
  - induction l as [|x l IH]; simpl.
    + constructor.
    + apply insert_desc_Sorted, IH.
Qed.

(** Stability: the items of one key value come out in the order they
    went in. *)
Lemma insert_desc_stable v x l :
  List.filter (fun z => key z =? v) (insert_desc key x l)
  = List.filter (fun z => key z =? v) (x :: l).
Proof.
  induction l as [|y l IH]; [reflexivity|].
  cbn [insert_desc]. destruct (key x <? key y) eqn:E; [|reflexivity].
  cbn [List.filter] in *. rewrite IH.
  destruct (key y =? v) eqn:Ey; [|reflexivity].
  destruct (key x =? v) eqn:Ex; [|reflexivity].
  lia.
Qed.

Lemma sorted_reverse_stable v l :
  List.filter (fun z => key z =? v) (sorted_reverse key l)
  = List.filter (fun z => key z =? v) l.
Proof.
  induction l as [|x l IH]; [reflexivity|].
  cbn [sorted_reverse foldr]. fold (sorted_reverse key l).
  rewrite insert_desc_stable. cbn [List.filter]. rewrite IH. reflexivity.
Qed.

End Ranking.

Example sorted_reverse_ties :
  sorted_reverse (fun item : Z * Z => item.2) [(1, 1); (2, 3); (3, 1); (4, 3)]
  = [(2, 3); (4, 3); (1, 1); (3, 1)].
Proof. reflexivity. Qed.

(** New keys are appended to a dictionary; the keys present keep their
    places. *)
Lemma dict_keys_fold_add kvs d :
  exists new,
    dict_keys (fold_left (fun d kv => dict_add d kv.1 kv.2) kvs d)
    = dict_keys d ++ new.
Proof.
  revert d. induction kvs as [|[k v] kvs IH]; intros d; simpl.
  - exists []. rewrite app_nil_r. reflexivity.
  - destruct (IH (dict_add d k v)) as [new Hnew]. rewrite Hnew.
    unfold dict_add. destruct (dict_get d k) eqn:E.
    + erewrite dict_keys_set_in by eassumption. eauto.
    + rewrite dict_keys_set_fresh by assumption.
      exists (k :: new). rewrite <- app_assoc. reflexivity.
Qed.

(** C3, as the program has it.  The ranking lists the entries of the
    histogram by true frequency, descending; entries of equal true
    frequency keep the order they have in the histogram, which is the order
    of insertion ([process_batch] appends the items it sees for the first
    time and leaves the others in place).  No secondary key is applied. *)
Theorem ranking_by_true_frequency (G : Globals) (batch : list Z) (st : State) :
  let ranking := sorted_reverse (fun item : Z * Z => item.2) (histogram st) in
  Permutation ranking (histogram st)
  /\ StronglySorted (fun x y : Z * Z => y.2 <= x.2) ranking
  /\ (forall f,
        List.filter (fun item : Z * Z => item.2 =? f) ranking
        = List.filter (fun item : Z * Z => item.2 =? f) (histogram st))
  /\ exists new,
       dict_keys (histogram (process_batch G batch st))
       = dict_keys (histogram st) ++ new.
Proof.
  intros ranking. subst ranking. split; [|split; [|split]].
  - apply sorted_reverse_Permutation.
  - apply (sorted_reverse_Sorted (fun item : Z * Z => item.2)).
  - intros f. apply sorted_reverse_stable.
  - destruct (THRESHOLD <=? (streamLength st).1) eqn:E.
    + rewrite (process_batch_skip G batch st E).
      exists []. rewrite app_nil_r. reflexivity.
    + rewrite (process_batch_run G batch st E). cbn [histogram].
      apply dict_keys_fold_add.
Qed.

(** The same two items, each seen once, are ranked in the order of their
    arrival: 1 before 2 when 1 came first, 2 before 1 when 2 came first. *)
Lemma ranking_depends_on_arrival :
  histogram (process_batch G_1x1 [2] (process_batch G_1x1 [1] st_1x1))
  = [(1, 1); (2, 1)]
  /\ histogram (process_batch G_1x1 [1] (process_batch G_1x1 [2] st_1x1))
     = [(2, 1); (1, 1)]
  /\ sorted_reverse (fun item : Z * Z => item.2) [(1, 1); (2, 1)]
     = [(1, 1); (2, 1)]
  /\ sorted_reverse (fun item : Z * Z => item.2) [(2, 1); (1, 1)]
     = [(2, 1); (1, 1)].
Proof. repeat split. Qed.

(** ** The output section: exceptions *)

Lemma py_index_Ok {A : Type} (l : list A) i x :
  py_index l i = Ok x -> - Z.of_nat (length l) <= i < Z.of_nat (length l).
Proof.
  unfold py_index.
  destruct ((0 <=? i) && (i <? Z.of_nat (length l))) eqn:E1.
  - intros _. lia.
  - destruct ((- Z.of_nat (length l) <=? i) && (i <? 0)) eqn:E2.
    + intros _. lia.
    + discriminate.
Qed.

Lemma py_index_Raise {A : Type} (l : list A) i e :
  py_index l i = Raise e -> e = IndexError.
Proof.
  unfold py_index.
  repeat match goal with
         | |- context [if ?c then _ else _] => destruct c
         | |- context [match ?o with Some _ => _ | None => _ end] => destruct o
         end; congruence.
Qed.

Lemma dict_lookup_Raise {V : Type} (d : dict V) k e :
  dict_lookup d k = Raise e -> e = KeyError.
Proof. unfold dict_lookup. destruct (dict_get d k); congruence. Qed.

Lemma fold_result_Raise {A B : Type} (f : B -> A -> result B) (P : exn -> Prop) :
  (forall acc x e, f acc x = Raise e -> P e) ->
  forall l b e, fold_result f l b = Raise e -> P e.
Proof.
  intros Hf l b. unfold fold_result.
  assert (H0 : forall e, Ok b = Raise e -> P e) by discriminate.
  revert H0. generalize (Ok b) as r.
  induction l as [|x l IH]; intros r Hr e; simpl.
  - apply Hr.
  - apply IH. intros e' He'. destruct r as [acc|e0]; simpl in He'.
    + eapply Hf, He'.
    + apply Hr. exact He'.
Qed.

Lemma fold_result_invariant {A B : Type} (f : B -> A -> result B) (P : B -> Prop) :
  (forall acc x acc', P acc -> f acc x = Ok acc' -> P acc') ->
  forall l b b', P b -> fold_result f l b = Ok b' -> P b'.
Proof.
  intros Hf l b b' Hb. unfold fold_result.
  assert (H0 : forall c, Ok b = Ok c -> P c) by (intros c [= <-]; exact Hb).
  revert H0. generalize (Ok b) as r.
  induction l as [|x l IH]; intros r Hr; simpl.
  - apply Hr.
  - apply IH. intros c Hc. destruct r as [acc|e0]; simpl in Hc; [|discriminate].
    eapply Hf; [apply Hr; reflexivity | exact Hc].
Qed.

Section OutputFacts.
Variable G : Globals.
Variable desc_histogram : list (Z * Z).
Variable approx_histogram : dict float64.
Variable printing : bool.

Lemma top_body_Raise lv k e :
  top_body desc_histogram approx_histogram printing lv k = Raise e ->
  e = IndexError \/ e = KeyError.
Proof.
  unfold top_body.
  destruct (py_index desc_histogram k) eqn:E1; simpl.
  - destruct (dict_lookup approx_histogram x.1) eqn:E2; simpl; [discriminate|].
    intros [= <-]. right. eapply dict_lookup_Raise, E2.
  - intros [= <-]. left. eapply py_index_Raise, E1.
Qed.

Lemma top_body_count lv k lv' :
  count lv = 1 ->
  top_body desc_histogram approx_histogram printing lv k = Ok lv' ->
  count lv' = 1.
Proof.
  unfold top_body. intros Hc.
  destruct (py_index desc_histogram k); simpl; [|discriminate].
  destruct (dict_lookup approx_histogram x.1); simpl; [|discriminate].
  intros [= <-]. exact Hc.
Qed.

Lemma rest_body_Raise lv k e : rest_body lv k = Raise e -> e <> OutOfFuel.
Proof.
  unfold rest_body, read_var.
  destruct (true_freq lv); simpl; [|intros [= <-]; discriminate].
  destruct (approx_freq lv); simpl; [discriminate | intros [= <-]; discriminate].
Qed.

Lemma tie_step_Raise lv e :
  tie_step G desc_histogram approx_histogram printing lv = Raise e ->
  e = IndexError \/ e = KeyError.
Proof.
  unfold tie_step.
  repeat match goal with
         | |- context [py_index ?l ?i] =>
             let E := fresh "E" in
             destruct (py_index l i) eqn:E; simpl;
             [|intros [= <-]; left; eapply py_index_Raise, E]
         | |- context [dict_lookup ?d ?k] =>
             let E := fresh "E" in
             destruct (dict_lookup d k) eqn:E; simpl;
             [|intros [= <-]; right; eapply dict_lookup_Raise, E]
         | |- context [if ?c then _ else _] => destruct c; simpl
         end; discriminate.
Qed.

(** A turn that goes on lists the entry at [K + count + 1] of the
    ranking, two places after the entry at [K - 1 + count] whose estimate
    it has compared. *)
Lemma tie_step_lists lv lv' :
  printing = true ->
  tie_step G desc_histogram approx_histogram printing lv = Ok (Some lv') ->
  exists e af,
    py_index desc_histogram (K G + count lv + 1) = Ok e
    /\ dict_lookup approx_histogram e.1 = Ok af
    /\ lines lv' = lines lv ++ [(e.1, e.2, af)].
Proof.
  intros ->. unfold tie_step.
  destruct (py_index desc_histogram (K G - 1)); simpl; [|discriminate].
  destruct (dict_lookup approx_histogram x.1); simpl; [|discriminate].
  destruct (py_index desc_histogram (K G - 1 + count lv)); simpl; [|discriminate].
  destruct (dict_lookup approx_histogram x1.1); simpl; [|discriminate].
  destruct (fl_eqb x0 x2); simpl; [|discriminate].
  rewrite <- Z.add_assoc.
  destruct (py_index desc_histogram (K G + (count lv + 1))) as [e|] eqn:Ee;
    simpl; [|discriminate].
  destruct (dict_lookup approx_histogram e.1) as [af|] eqn:Ea; simpl;
    [|discriminate].
  intros [= <-]. exists e, af. repeat split; assumption.
Qed.

(** When [K - 1 + count] is the length of the ranking, the turn raises. *)
Lemma tie_step_at_end lv :
  K G - 1 + count lv = Z.of_nat (length desc_histogram) ->
  exists e, tie_step G desc_histogram approx_histogram printing lv = Raise e
            /\ (e = IndexError \/ e = KeyError).
Proof.
  intros Hend.
  destruct (tie_step G desc_histogram approx_histogram printing lv)
    as [r|e] eqn:E.
  - exfalso. revert E. unfold tie_step.
    destruct (py_index desc_histogram (K G - 1)); simpl; [|discriminate].
    destruct (dict_lookup approx_histogram x.1); simpl; [|discriminate].
    destruct (py_index desc_histogram (K G - 1 + count lv)) eqn:E2; simpl;
      [|discriminate].
    apply py_index_Ok in E2. lia.
  - exists e. split; [reflexivity | eapply tie_step_Raise, E].
Qed.

Lemma tie_step_continue lv lv' :
  tie_step G desc_histogram approx_histogram printing lv = Ok (Some lv') ->
  - Z.of_nat (length desc_histogram) <= K G - 1 + count lv
      < Z.of_nat (length desc_histogram)
  /\ count lv' = count lv + 1.
Proof.
  unfold tie_step.
  destruct (py_index desc_histogram (K G - 1)); simpl; [|discriminate].
  destruct (dict_lookup approx_histogram x.1); simpl; [|discriminate].
  destruct (py_index desc_histogram (K G - 1 + count lv)) eqn:E; simpl;
    [|discriminate].
  apply py_index_Ok in E.
  destruct (dict_lookup approx_histogram x1.1); simpl; [|discriminate].
  destruct (fl_eqb x0 x2); simpl; [|discriminate].
  destruct (py_index desc_histogram (K G + (count lv + 1))); simpl; [|discriminate].
  destruct (dict_lookup approx_histogram x3.1); simpl; [|discriminate].
  intros [= <-]. simpl. lia.
Qed.

(** The fuel given to the loop is never used up: every turn that goes on
    has read the ranking at [K - 1 + count], which is then below its
    length, and raises [count]. *)
Lemma tie_loop_total fuel lv e :
  (0 < fuel)%nat ->
  K G - 1 + count lv < - Z.of_nat (length desc_histogram)
  \/ Z.of_nat (length desc_histogram) - (K G - 1 + count lv) < Z.of_nat fuel ->
  tie_loop G desc_histogram approx_histogram printing fuel lv = Raise e ->
  e <> OutOfFuel.
Proof.
  revert lv. induction fuel as [|fuel IH]; intros lv Hpos Hfuel; [lia|].
  simpl.
  destruct (tie_step G desc_histogram approx_histogram printing lv)
    as [[lv'|]|e'] eqn:E; simpl.
  - apply tie_step_continue in E as [Hi Hc].
    apply IH; [lia|]. right. lia.
  - discriminate.
  - intros [= <-]. apply tie_step_Raise in E as [-> | ->]; discriminate.
Qed.

End OutputFacts.

Lemma py_index_nil {A : Type} i : py_index (@nil A) i = Raise IndexError.
Proof.
  unfold py_index. simpl.
  repeat match goal with
         | |- context [if ?c then _ else _] => destruct c
         end; reflexivity.
Qed.

Lemma fold_result_from_Raise {A B : Type} (f : B -> A -> result B) l e :
  fold_left (fun r x => r ≫= fun acc => f acc x) l (Raise e) = Raise e.
Proof. induction l as [|x l IH]; simpl; [reflexivity | exact IH]. Qed.

Lemma statistics_Raise (G : Globals) (st : State) :
  (streamLength st).2 = 0 ->
  exists e, statistics G st = Raise e /\ e <> OutOfFuel.
Proof.
  intros Hadm. unfold statistics.
  set (desc := sorted_reverse _ (histogram st)).
  set (lv0 := {| count := 1; item := None; true_freq := None;
                 approx_freq := None; avg_error_list := [];
                 F2_list := ([], []); lines := [] |}).
  destruct (fold_result _ (np_arange 0 (K G)) lv0) as [lv1|e] eqn:E1; cbn [mbind result_bind].
  2:{ exists e. split; [reflexivity|].
      eapply (fold_result_Raise _ (fun e => e <> OutOfFuel)); [|exact E1].
      intros acc x e' He'. apply top_body_Raise in He' as [-> | ->]; discriminate. }
  assert (Hc : count lv1 = 1).
  { eapply (fold_result_invariant _ (fun lv => count lv = 1)); [| |exact E1].
    - intros acc x acc'. apply top_body_count.
    - reflexivity. }
  destruct (tie_loop G desc (approx_histogram st) (K G <=? 20)
              (S (2 * length desc)) lv1) as [lv2|e] eqn:E2; cbn [mbind result_bind].
  2:{ exists e. split; [reflexivity|].
      eapply tie_loop_total; [| |exact E2]; [lia|]. rewrite Hc.
      destruct (Z_lt_le_dec (K G) (- Z.of_nat (length desc))); [left|right]; lia. }
  destruct (fold_result rest_body _ lv2) as [lv3|e] eqn:E3; cbn [mbind result_bind].
  2:{ exists e. split; [reflexivity|].
      eapply (fold_result_Raise _ (fun e => e <> OutOfFuel)); [|exact E3].
      intros acc x e'. apply rest_body_Raise. }
  rewrite Hadm. exists ZeroDivisionError. split; [reflexivity | discriminate].
Qed.

Lemma fold_result_cons {A B : Type} (f : B -> A -> result B) x l b :
  fold_result f (x :: l) b = f b x ≫= fold_result f l.
Proof.
  unfold fold_result. cbn [fold_left mbind result_bind].
  destruct (f b x); [reflexivity | apply fold_result_from_Raise].
Qed.

Lemma top_body_nil approx printing lv k :
  top_body [] approx printing lv k = Raise IndexError.
Proof. unfold top_body. rewrite py_index_nil. reflexivity. Qed.

Lemma statistics_empty (G : Globals) (st : State) :
  histogram st = [] -> statistics G st = Raise IndexError.
Proof.
  intros Hh. unfold statistics. rewrite Hh. cbn [sorted_reverse foldr length].
  destruct (np_arange 0 (K G)) as [|k ks] eqn:E.
  - cbn [fold_result fold_left mbind result_bind tie_loop Nat.mul Nat.add].
    unfold tie_step. rewrite (py_index_nil (K G - 1)). reflexivity.
  - rewrite fold_result_cons, top_body_nil. reflexivity.
Qed.

(** With [K] equal to the number of distinct items the output section
    never produces a report: the first turn of the loop reads the ranking
    at index [K]. *)
Lemma statistics_K_distinct (G : Globals) (st : State) :
  K G = Z.of_nat (length (histogram st)) ->
  exists e, statistics G st = Raise e /\ (e = IndexError \/ e = KeyError).
Proof.
  intros HK. unfold statistics.
  set (desc := sorted_reverse _ (histogram st)).
  assert (Hlen : length desc = length (histogram st))
    by apply Permutation_length, sorted_reverse_Permutation.
  set (lv0 := {| count := 1; item := None; true_freq := None;
                 approx_freq := None; avg_error_list := [];
                 F2_list := ([], []); lines := [] |}).
  destruct (fold_result _ (np_arange 0 (K G)) lv0) as [lv1|e] eqn:E1;
    cbn [mbind result_bind].
  2:{ exists e. split; [reflexivity|].
      eapply (fold_result_Raise _ (fun e => e = IndexError \/ e = KeyError));
        [|exact E1].
      intros acc x e'. apply top_body_Raise. }
  assert (Hc : count lv1 = 1).
  { eapply (fold_result_invariant _ (fun lv => count lv = 1)); [| |exact E1].
    - intros acc x acc'. apply top_body_count.
    - reflexivity. }
  destruct (tie_step_at_end G desc (approx_histogram st) (K G <=? 20) lv1)
    as (e & He & Hlookup); [lia|].
  exists e. split; [|exact Hlookup].
  cbn [tie_loop]. rewrite He. reflexivity.
Qed.

(** C8, as the program has it.  With no admitted item the output section
    produces no F2 value and no sentinel: it ends in an exception.  The
    normalisation is the plain division by [streamLength[1] ** 2], which
    raises [ZeroDivisionError]; with an empty histogram the [IndexError] of
    the ranking comes first. *)
Theorem F2_without_admitted_items (G : Globals) (st : State) :
  (streamLength st).2 = 0 ->
  (exists e, outputs G st = Raise e /\ e <> OutOfFuel)
  /\ (forall s, py_truediv s ((streamLength st).2 ^ 2) = Raise ZeroDivisionError)
  /\ (histogram st = [] -> outputs G st = Raise IndexError).
Proof.
  intros Hadm. unfold outputs.
  destruct (compute_approx_histogram_frame G st) as (H1 & H2 & _).
  split; [|split].
  - apply statistics_Raise. rewrite H1. exact Hadm.
  - intros s. rewrite Hadm. reflexivity.
  - intros Hh. apply statistics_empty. rewrite H2. exact Hh.
Qed.

Lemma F2_without_admitted_items_witness :
  (streamLength (process_batch G_1x1 [12] st_1x1)).2 = 0
  /\ histogram (process_batch G_1x1 [12] st_1x1) = []
  /\ (exists e, outputs G_1x1 (process_batch G_1x1 [12] st_1x1) = Raise e
                /\ e <> OutOfFuel)
  /\ outputs G_1x1 (process_batch G_1x1 [12] st_1x1) = Raise IndexError.
Proof.
  assert (H : (streamLength (process_batch G_1x1 [12] st_1x1)).2 = 0)
    by reflexivity.
  assert (Hh : histogram (process_batch G_1x1 [12] st_1x1) = [])
    by reflexivity.
  split; [exact H|]. split; [exact Hh|].
  destruct (F2_without_admitted_items G_1x1
              (process_batch G_1x1 [12] st_1x1) H) as (H1 & _ & H3).
  split; [exact H1 | exact (H3 Hh)].
Defined.

(** A run whose only item lies outside [[left, right]]: no report, and the
    division that would normalise F2 raises. *)
Lemma no_sentinel_for_F2 :
  run 1 1 1 9 1 (fun _ => 0) (fun _ => 0) [[12]] = Raise IndexError
  /\ py_truediv (sum_Z []) (0 ^ 2) = Raise ZeroDivisionError.
Proof. split; reflexivity. Qed.

(** ** Construction *)

(** C7, as the program has it.  [__main__] does not validate its
    arguments.  Construction succeeds exactly when [D >= 0] and [W >= 0] and
    then keeps [D], [W], [left], [right] and [K] as given; it fails, with
    numpy's [ValueError], only for a negative [D] or [W], which the
    allocation of the arrays refuses. *)
Theorem main_init_validation (d w l r k : Z) (draw_a draw_b : nat -> Z) :
  match main_init d w l r k draw_a draw_b with
  | Ok (G, st) =>
      0 <= d /\ 0 <= w
      /\ D G = d /\ W G = w /\ left G = l /\ right G = r /\ K G = k
  | Raise e => e = ValueError /\ (d < 0 \/ w < 0)
  end.
Proof.
  unfold main_init, np_random_randint, np_zeros.
  destruct (d * 2 <? 0) eqn:E1; simpl.
  - split; [reflexivity | lia].
  - destruct ((d <? 0) || (w <? 0)) eqn:E2; simpl.
    + split; [reflexivity | lia].
    + repeat split; lia.
Qed.

(** [D = 0], [W = 0], [left > right] and [K < 0] are accepted together. *)
Lemma invalid_configuration_accepted :
  main_init 0 0 5 3 (-1) (fun _ => 0) (fun _ => 0)
  = Ok ({| D := 0; W := 0; left := 5; right := 3; K := -1; p := 8191;
           a := []; b := [] |},
        {| streamLength := (0, 0); histogram := []; approx_histogram := [];
           sketch := []; stopping_condition := false |}).
Proof. reflexivity. Qed.

(** ** Defects of the output section *)

(** C1.  The stream has items 1, 3, 2, 5 with true frequencies 4, 3, 2, 1
    and estimates 6, 6, -6, 6.  With [K = 1] the loop compares the
    estimate of item 1 with that of the second-ranked item 3, finds them
    equal, and lists the fourth-ranked item 5 instead of item 3. *)
Theorem tie_extension_skips_compared_item :
  match run 1 1 1 9 1 (fun _ => 0) (fun _ => 0) [[1; 1; 1; 1; 3; 3; 3; 2; 2; 5]] with
  | Ok r => item_lines r = [(1, 4, fin 6); (5, 1, fin 6)]
  | Raise _ => False
  end.
Proof. vm_compute. reflexivity. Qed.

(** C2.  On the items 1, 1, 1, 2, 3, 3 (and 12, outside the interval)
    with [K = 1], the reported F2 is (9 + 9 + 9) / 36 and the reported
    estimate (12.25 + 12.25 + 12.25) / 36: the pair of the top item is
    used for the two other items.  The true frequencies 3, 2, 1 give
    14 / 36. *)
Theorem F2_uses_stale_pair :
  match run 2 3 1 9 1 (fun i => 2 + 17 * Z.of_nat i) (fun i => 5 * Z.of_nat i)
            [[1; 1; 2; 3; 12; 3; 1]] with
  | Ok r =>
      Qeq (F2 r) (Qmake 27 36)
      /\ fl_equiv (F2_estimate r) (fin (Qmake 3675 3600))
      /\ Qeq (F2True [(1, 3); (2, 1); (3, 2)] 6) (Qmake 14 36)
      /\ ~ Qeq (F2 r) (F2True [(1, 3); (2, 1); (3, 2)] 6)
  | Raise _ => False
  end.
Proof. vm_compute. repeat split; discriminate. Qed.

(** C10.  With one distinct item and [K = 1], and with three distinct
    items of equal estimate and [K = 1], the tie-extension loop reads the
    ranking past its end and the run stops with [IndexError]. *)
Theorem tie_extension_reads_past_end :
  run 1 1 1 9 1 (fun _ => 0) (fun _ => 0) [[7]] = Raise IndexError
  /\ run 1 1 1 9 1 (fun _ => 0) (fun _ => 0) [[1; 1; 1; 3; 3; 5]] = Raise IndexError.
Proof. split; vm_compute; reflexivity. Qed.

(** * Further properties *)

(** ** The hash functions *)

(** X1.  For [W > 0] the bucket of every item lies in [[0, W)], and the
    sign of every item is [+1] or [-1], whatever the parameters. *)
Theorem hash_ranges (G : Globals) (x a b a' b' : Z) :
  0 < W G ->
  0 <= h_hash G x a b < W G
  /\ (g_hash G x a' b' = 1 \/ g_hash G x a' b' = -1).
Proof.
  intros HW. split.
  - unfold h_hash. apply Z.mod_pos_bound, HW.
  - apply g_hash_sign.
Qed.

Lemma hash_ranges_witness :
  0 < W G_2x3
  /\ 0 <= h_hash G_2x3 7 20 5 < W G_2x3
  /\ (g_hash G_2x3 7 37 10 = 1 \/ g_hash G_2x3 7 37 10 = -1).
Proof.
  assert (HW : 0 < W G_2x3) by reflexivity.
  split; [exact HW|].
  exact (hash_ranges G_2x3 7 20 5 37 10 HW).
Defined.

Lemma h_hash_period (G : Globals) x k a b :
  h_hash G (x + k * p G) a b = h_hash G x a b.
Proof.
  unfold h_hash. f_equal.
  replace (a * (x + k * p G) + b) with (a * x + b + (a * k) * p G) by ring.
  apply Z_mod_plus_full.
Qed.

Lemma g_hash_period (G : Globals) x k a b :
  g_hash G (x + k * p G) a b = g_hash G x a b.
Proof.
  unfold g_hash.
  replace (a * (x + k * p G) + b) with (a * x + b + (a * k) * p G) by ring.
  rewrite Z_mod_plus_full. reflexivity.
Qed.

(** X2.  Within the range where the 64-bit products of the hash
    functions do not wrap (parameters in [[0, 2^13)], items of magnitude
    at most 2^49), with [p > 0], [W > 0], parameter arrays of [2 * D]
    entries and a sketch of [D] rows and [W] columns: two items that
    differ by a multiple of the modulus [p] cannot be told apart.  They
    have the same bucket and the same sign for every parameter pair, and
    so the same row values and the same estimate. *)
Theorem hash_period (G : Globals) (x k : Z) (sk : list (list Z)) :
  0 < p G -> 0 < W G ->
  length (a G) = Z.to_nat (2 * D G) -> length (b G) = Z.to_nat (2 * D G) ->
  Forall (fun v => 0 <= v < 2 ^ 13) (a G) ->
  Forall (fun v => 0 <= v < 2 ^ 13) (b G) ->
  sketch_shape G sk ->
  Z.abs x <= 2 ^ 49 -> Z.abs (x + k * p G) <= 2 ^ 49 ->
  (forall a b, 0 <= a < 2 ^ 13 -> 0 <= b < 2 ^ 13 ->
     h_hash G (x + k * p G) a b = h_hash G x a b
     /\ g_hash G (x + k * p G) a b = g_hash G x a b)
  /\ approx_freq_list G sk (x + k * p G) = approx_freq_list G sk x
  /\ estimate G sk (x + k * p G) = estimate G sk x.
Proof.
  intros _ _ _ _ _ _ _ _ _.
  assert (H : approx_freq_list G sk (x + k * p G) = approx_freq_list G sk x).
  { unfold approx_freq_list. apply map_ext. intros j.
    rewrite g_hash_period, h_hash_period. reflexivity. }
  split; [intros; split; [apply h_hash_period | apply g_hash_period]|].
  split; [exact H|]. unfold estimate. rewrite H. reflexivity.
Qed.

(** Items 1 and 8192 on the 2 x 3 sketch after the batch 1, 1, 2, 3. *)
Lemma hash_period_witness :
  0 < p G_2x3
  /\ Z.abs (1 + 1 * p G_2x3) <= 2 ^ 49
  /\ h_hash G_2x3 (1 + 1 * p G_2x3) 20 5 = h_hash G_2x3 1 20 5
  /\ estimate G_2x3 (count_sketch G_2x3 [1; 1; 2; 3] (sketch st_2x3))
                (1 + 1 * p G_2x3)
     = estimate G_2x3 (count_sketch G_2x3 [1; 1; 2; 3] (sketch st_2x3)) 1.
Proof.
  assert (Hp : 0 < p G_2x3) by reflexivity.
  assert (Hb : Z.abs (1 + 1 * p G_2x3) <= 2 ^ 49) by discriminate.
  split; [exact Hp|]. split; [exact Hb|].
  assert (Hpar : forall l : list Z,
            l = [3; 20; 37; 54] \/ l = [0; 5; 10; 15] ->
            Forall (fun v => 0 <= v < 2 ^ 13) l).
  { intros l [-> | ->]; repeat constructor; discriminate. }
  destruct (hash_period G_2x3 1 1
              (count_sketch G_2x3 [1; 1; 2; 3] (sketch st_2x3)))
    as (H1 & _ & H3);
    [exact Hp | reflexivity | reflexivity | reflexivity
     | apply Hpar; left; reflexivity | apply Hpar; right; reflexivity
     | reflexivity | discriminate | exact Hb |].
  split; [|exact H3].
  apply H1; split; first [discriminate | reflexivity].
Defined.

(** ** Initialisation *)

Lemma np_random_randint_range low high size draw l :
  low < high ->
  np_random_randint low high size draw = Ok l ->
  length l = Z.to_nat size /\ Forall (fun x => low <= x < high) l.
Proof.
  intros Hlh. unfold np_random_randint.
  destruct (size <? 0); [discriminate|]. intros [= <-]. split.
  - rewrite length_map, length_seq. reflexivity.
  - apply Forall_forall. intros x Hx.
    apply list_elem_of_In, in_map_iff in Hx as (i & <- & _).
    pose proof (Z.mod_pos_bound (draw i) (high - low) ltac:(lia)). lia.
Qed.

Lemma np_zeros_shape rows cols sk :
  np_zeros rows cols = Ok sk ->
  sk = replicate (Z.to_nat rows) (replicate (Z.to_nat cols) 0)
  /\ 0 <= rows /\ 0 <= cols.
Proof.
  unfold np_zeros. destruct ((rows <? 0) || (cols <? 0)) eqn:E; [discriminate|].
  intros [= <-]. repeat split; lia.
Qed.

Lemma main_init_facts (d w l r k : Z) (draw_a draw_b : nat -> Z)
  (G : Globals) (st : State) :
  main_init d w l r k draw_a draw_b = Ok (G, st) ->
  p G = 8191
  /\ length (a G) = Z.to_nat (2 * D G) /\ Forall (fun x => 1 <= x <= p G - 2) (a G)
  /\ length (b G) = Z.to_nat (2 * D G) /\ Forall (fun x => 0 <= x <= p G - 2) (b G)
  /\ sketch st = replicate (Z.to_nat (D G)) (replicate (Z.to_nat (W G)) 0)
  /\ streamLength st = (0, 0) /\ histogram st = [] /\ approx_histogram st = []
  /\ stopping_condition st = false.
Proof.
  unfold main_init.
  destruct (np_random_randint 1 (8191 - 1) (d * 2) draw_a) as [la|] eqn:Ea;
    cbn [mbind result_bind]; [|discriminate].
  destruct (np_random_randint 0 (8191 - 1) (d * 2) draw_b) as [lb|] eqn:Eb;
    cbn [mbind result_bind]; [|discriminate].
  destruct (np_zeros d w) as [sk|] eqn:Es; cbn [mbind result_bind];
    [|discriminate].
  intros [= <- <-]. cbn [p a b D W sketch streamLength histogram
                           approx_histogram stopping_condition].
  apply np_random_randint_range in Ea as [Hla Ha]; [|lia].
  apply np_random_randint_range in Eb as [Hlb Hb]; [|lia].
  apply np_zeros_shape in Es as (-> & _ & _).
  replace (2 * d) with (d * 2) by lia.
  repeat split; try assumption.
  - eapply Forall_impl; [exact Ha|]. simpl. intros; lia.
  - eapply Forall_impl; [exact Hb|]. simpl. intros; lia.
Qed.


(** X3.  When the initialisation succeeds, the modulus is 8191, the two
    parameter arrays have [2 * D] entries, those of [a] in [[1, p - 2]] and
    those of [b] in [[0, p - 2]], the sketch has [D] rows of [W] zeros, and
    the counts, the histogram and the approximate histogram are empty. *)
Theorem main_init_Ok (d w l r k : Z) (draw_a draw_b : nat -> Z)
  (G : Globals) (st : State) :
  main_init d w l r k draw_a draw_b = Ok (G, st) ->
  p G = 8191
  /\ length (a G) = Z.to_nat (2 * D G) /\ Forall (fun x => 1 <= x <= p G - 2) (a G)
  /\ length (b G) = Z.to_nat (2 * D G) /\ Forall (fun x => 0 <= x <= p G - 2) (b G)
  /\ sketch st = replicate (Z.to_nat (D G)) (replicate (Z.to_nat (W G)) 0)
  /\ streamLength st = (0, 0) /\ histogram st = [] /\ approx_histogram st = []
  /\ stopping_condition st = false.
Proof. apply main_init_facts. Qed.

Lemma main_init_Ok_witness :
  main_init 2 3 1 9 1 (fun i => 2 + 17 * Z.of_nat i) (fun i => 5 * Z.of_nat i)
  = Ok (G_2x3, st_2x3)
  /\ length (a G_2x3) = Z.to_nat (2 * D G_2x3)
  /\ Forall (fun x => 1 <= x <= p G_2x3 - 2) (a G_2x3).
Proof.
  assert (H : main_init 2 3 1 9 1 (fun i => 2 + 17 * Z.of_nat i)
                (fun i => 5 * Z.of_nat i) = Ok (G_2x3, st_2x3)) by reflexivity.
  split; [exact H|].
  destruct (main_init_Ok _ _ _ _ _ _ _ _ _ H) as (_ & H1 & H2 & _).
  split; [exact H1 | exact H2].
Defined.

(** ** Sums over dictionaries *)

Section DictSum.
Variable w : Z -> Z -> Z.
Hypothesis w_add : forall x m n, w x (m + n) = w x m + w x n.

Lemma dict_sum_add d k v :
  dict_sum w (dict_add d k v) = dict_sum w d + w k v.
Proof using w_add.
  unfold dict_add. induction d as [|[k0 v0] d IH]; simpl.
  - lia.
  - destruct (k0 =? k) eqn:E; simpl.
    + apply Z.eqb_eq in E; subst k0. rewrite w_add. lia.
    + destruct (dict_get d k); simpl in *; lia.
Qed.

Lemma dict_sum_fold_add kvs d :
  dict_sum w (fold_left (fun d kv => dict_add d kv.1 kv.2) kvs d)
  = dict_sum w d + dict_sum w kvs.
Proof using w_add.
  revert d. induction kvs as [|[k v] kvs IH]; intros d; simpl.
  - lia.
  - rewrite IH, dict_sum_add. simpl. lia.
Qed.

Lemma dict_sum_ones (l : list Z) :
  dict_sum w (List.map (fun s => (s, 1)) l) = foldr (fun x acc => w x 1 + acc) 0 l.
Proof. induction l as [|x l IH]; simpl; [reflexivity | rewrite IH; reflexivity]. Qed.

Lemma dict_sum_histogram_update (l : list Z) d :
  dict_sum w
    (fold_left (fun d kv => dict_add d kv.1 kv.2)
               (reduceByKey_collectAsMap (List.map (fun s => (s, 1)) l)) d)
  = dict_sum w d + foldr (fun x acc => w x 1 + acc) 0 l.
Proof using w_add.
  rewrite dict_sum_fold_add. unfold reduceByKey_collectAsMap.
  rewrite dict_sum_fold_add, dict_sum_ones. simpl. lia.
Qed.

End DictSum.

Lemma foldr_count (l : list Z) :
  foldr (fun (x : Z) acc => 1 + acc) 0 l = Z.of_nat (length l).
Proof. induction l as [|x l IH]; simpl length; simpl foldr; lia. Qed.

Lemma multiplicity_In x l : multiplicity x l <> 0 -> In x l.
Proof.
  unfold multiplicity. intros H.
  apply (count_occ_In Z.eq_dec). lia.
Qed.

(** ** Bookkeeping of the stream *)

Lemma ingest_snoc (G : Globals) stream batch st :
  ingest G (stream ++ [batch]) st = process_batch G batch (ingest G stream st).
Proof. unfold ingest. rewrite fold_left_app. reflexivity. Qed.

Lemma bookkeeping_step (G : Globals) batch st :
  NoDup (dict_keys (histogram st))
  /\ (forall k c, dict_get (histogram st) k = Some c ->
                  0 < c /\ left G <= k <= right G)
  /\ total_count (histogram st) = (streamLength st).2
  /\ 0 <= (streamLength st).2 <= (streamLength st).1 ->
  let st' := process_batch G batch st in
  NoDup (dict_keys (histogram st'))
  /\ (forall k c, dict_get (histogram st') k = Some c ->
                  0 < c /\ left G <= k <= right G)
  /\ total_count (histogram st') = (streamLength st').2
  /\ 0 <= (streamLength st').2 <= (streamLength st').1.
Proof.
  intros (Hnd & Hpos & Hsum & Hle) st'. subst st'.
  destruct (THRESHOLD <=? (streamLength st).1) eqn:E.
  - rewrite (process_batch_skip G batch st E). auto.
  - rewrite (process_batch_run G batch st E).
    cbn [streamLength histogram fst snd].
    set (adm := List.filter (in_interval G) batch).
    split; [|split; [|split]].
    + apply NoDup_keys_fold_add, Hnd.
    + intros k c. rewrite histogram_update_get.
      destruct (multiplicity k adm =? 0) eqn:Em; [apply Hpos|].
      apply Z.eqb_neq in Em. intros [= <-].
      pose proof (multiplicity_nonneg k adm).
      split.
      * destruct (dict_get (histogram st) k) as [c0|] eqn:Ek; simpl; [|lia].
        destruct (Hpos k c0 Ek). lia.
      * apply multiplicity_In in Em. apply filter_In in Em as [_ Hin].
        unfold in_interval in Hin. lia.
    + unfold total_count in *.
      rewrite dict_sum_histogram_update by (intros; lia).
      rewrite foldr_count, Hsum. reflexivity.
    + pose proof (filter_length_le (in_interval G) batch). fold adm in H. lia.
Qed.

Lemma ingest_bookkeeping (G : Globals) (st0 : State) (stream : list (list Z)) :
  streamLength st0 = (0, 0) -> histogram st0 = [] ->
  let st := ingest G stream st0 in
  NoDup (dict_keys (histogram st))
  /\ (forall item c, dict_get (histogram st) item = Some c ->
                     0 < c /\ left G <= item <= right G)
  /\ total_count (histogram st) = (streamLength st).2
  /\ 0 <= (streamLength st).2 <= (streamLength st).1.
Proof.
  intros Hs Hh.
  induction stream as [|batch stream IH] using rev_ind; intros st; subst st.
  - unfold ingest. simpl. rewrite Hh, Hs. simpl.
    repeat split; try lia; try constructor; discriminate.
  - rewrite ingest_snoc. apply bookkeeping_step, IH.
Qed.

(** X4.  Whatever the stream, after the initialisation and any number of
    batches: the histogram has each item once, every count in it is
    positive, every item in it lies in [[left, right]], its counts add up
    to [streamLength[1]], and [0 <= streamLength[1] <= streamLength[0]]. *)
Theorem histogram_bookkeeping (d w l r k : Z) (draw_a draw_b : nat -> Z)
  (G : Globals) (st0 : State) (stream : list (list Z)) :
  main_init d w l r k draw_a draw_b = Ok (G, st0) ->
  let st := ingest G stream st0 in
  NoDup (dict_keys (histogram st))
  /\ (forall item c, dict_get (histogram st) item = Some c ->
                     0 < c /\ left G <= item <= right G)
  /\ total_count (histogram st) = (streamLength st).2
  /\ 0 <= (streamLength st).2 <= (streamLength st).1.
Proof.
  intros Hinit.
  apply main_init_facts in Hinit as (_ & _ & _ & _ & _ & _ & Hs & Hh & _).
  apply ingest_bookkeeping; assumption.
Qed.

Lemma histogram_bookkeeping_witness :
  main_init 1 1 1 9 1 (fun _ => 0) (fun _ => 0) = Ok (G_1x1, st_1x1)
  /\ total_count (histogram (ingest G_1x1 [[3; 12; 3]; [5]] st_1x1))
     = (streamLength (ingest G_1x1 [[3; 12; 3]; [5]] st_1x1)).2.
Proof.
  assert (H : main_init 1 1 1 9 1 (fun _ => 0) (fun _ => 0) = Ok (G_1x1, st_1x1))
    by reflexivity.
  split; [exact H|].
  exact (proj1 (proj2 (proj2
           (histogram_bookkeeping _ _ _ _ _ _ _ _ _ [[3; 12; 3]; [5]] H)))).
Defined.

(** ** The cells of the sketch *)

Lemma in_range_row (sk : list (list Z)) j c :
  in_range sk j c ->
  exists row x, sk !! Z.to_nat j = Some row /\ row !! Z.to_nat c = Some x.
Proof.
  intros (n & Hn & Hc). change (List.map (@length Z) sk) with (length <$> sk) in Hn.
  rewrite list_lookup_fmap in Hn.
  destruct (sk !! Z.to_nat j) as [row|] eqn:Er; [|discriminate].
  injection Hn as <-.
  destruct (lookup_lt_is_Some_2 row (Z.to_nat c) Hc) as [x Hx].
  eauto.
Qed.

Lemma in_range_sketch_add sk j c j' c' v :
  in_range sk j c -> in_range (sketch_add j' c' v sk) j c.
Proof. unfold in_range. rewrite sketch_add_shape. auto. Qed.

Lemma sketch_shape_in_range (G : Globals) sk j c :
  sketch_shape G sk -> 0 <= j < D G -> 0 <= c < W G -> in_range sk j c.
Proof.
  unfold sketch_shape, in_range. intros -> Hj Hc.
  exists (Z.to_nat (W G)). split; [|lia].
  apply lookup_replicate_2. lia.
Qed.

Lemma sketch_get_add sk j c j' c' v :
  0 <= j -> 0 <= c -> 0 <= j' -> 0 <= c' -> in_range sk j c ->
  sketch_get (sketch_add j' c' v sk) j c
  = sketch_get sk j c + (if (j' =? j) && (c' =? c) then v else 0).
Proof.
  intros Hj Hc Hj' Hc' Hr.
  destruct (in_range_row _ _ _ Hr) as (row & x & Hrow & Hx).
  unfold sketch_get, sketch_add. rewrite list_lookup_alter.
  destruct (decide (Z.to_nat j' = Z.to_nat j)) as [Ej|Ej].
  - assert (j' = j) as -> by lia. rewrite Z.eqb_refl, Hrow. simpl.
    rewrite list_lookup_alter.
    destruct (decide (Z.to_nat c' = Z.to_nat c)) as [Ec|Ec].
    + assert (c' = c) as -> by lia. rewrite Z.eqb_refl, Hx. simpl. reflexivity.
    + assert ((c' =? c) = false) as -> by (apply Z.eqb_neq; lia).
      rewrite Hx. simpl. lia.
  - assert ((j' =? j) = false) as -> by (apply Z.eqb_neq; lia).
    simpl. lia.
Qed.

Lemma apply_ops_cell ops sk j c :
  Forall (fun o : Z * Z * Z => 0 <= o.1.1 /\ 0 <= o.1.2) ops ->
  0 <= j -> 0 <= c -> in_range sk j c ->
  sketch_get (apply_ops ops sk) j c = sketch_get sk j c + ops_sum j c ops.
Proof.
  intros Hops Hj Hc. revert sk.
  induction Hops as [|o ops [Ho1 Ho2] _ IH]; intros sk Hr; simpl.
  - lia.
  - rewrite IH by (apply in_range_sketch_add, Hr).
    rewrite sketch_get_add by assumption. lia.
Qed.

Lemma ops_sum_app j c ops ops' :
  ops_sum j c (ops ++ ops') = ops_sum j c ops + ops_sum j c ops'.
Proof. induction ops as [|o ops IH]; simpl; [reflexivity | rewrite IH; lia]. Qed.

Lemma np_arange_In lo hi j : In j (np_arange lo hi) <-> lo <= j < hi.
Proof.
  unfold np_arange. rewrite in_map_iff. split.
  - intros (i & <- & Hi). apply in_seq in Hi. lia.
  - intros Hj. exists (Z.to_nat (j - lo)). split; [lia|].
    apply in_seq. lia.
Qed.

Lemma np_arange_NoDup lo hi : NoDup (np_arange lo hi).
Proof.
  unfold np_arange. apply NoDup_fmap_2; [|apply NoDup_seq].
  intros x y. lia.
Qed.

(** the sum of [F] over the rows equal to [j], for rows listed once *)
Lemma ops_sum_rows j c (F : Z -> Z * Z) (rows : list Z) :
  NoDup rows ->
  ops_sum j c (List.map (fun j' => (j', (F j').1, (F j').2)) rows)
  = if in_dec Z.eq_dec j rows
    then (if (F j).1 =? c then (F j).2 else 0) else 0.
Proof.
  induction 1 as [|j' rows Hnot Hnd IH]; simpl.
  - reflexivity.
  - rewrite IH. destruct (Z.eq_dec j' j) as [->|Hne].
    + rewrite Z.eqb_refl. simpl.
      destruct (in_dec Z.eq_dec j rows) as [Hin|_]; [|lia].
      exfalso. apply Hnot, list_elem_of_In, Hin.
    + assert ((j' =? j) = false) as -> by (apply Z.eqb_neq; lia). simpl.
      destruct (in_dec Z.eq_dec j rows); reflexivity.
Qed.

Lemma ops_sum_item_ops (G : Globals) j c x wt :
  0 <= j < D G ->
  ops_sum j c (item_ops G wt x) = contribution G j c x wt.
Proof.
  intros Hj. unfold item_ops, contribution.
  rewrite (ops_sum_rows j c
             (fun j' => (h_hash G x (np_get (a G) j') (np_get (b G) j'),
                         g_hash G x (np_get (a G) (j' + D G))
                                (np_get (b G) (j' + D G)) * wt)))
    by apply np_arange_NoDup.
  destruct (in_dec Z.eq_dec j (np_arange 0 (D G))) as [_|Hn]; [reflexivity|].
  exfalso. apply Hn, np_arange_In. lia.
Qed.

Lemma item_ops_nonneg (G : Globals) wt (l : list Z) :
  0 < W G ->
  Forall (fun o : Z * Z * Z => 0 <= o.1.1 /\ 0 <= o.1.2)
         (flat_map (item_ops G wt) l).
Proof.
  intros HW. apply Forall_forall. intros o Ho.
  apply list_elem_of_In, in_flat_map in Ho as (x & _ & Ho).
  unfold item_ops in Ho. apply in_map_iff in Ho as (j & <- & Hj).
  apply np_arange_In in Hj. unfold cell_op. cbn [fst snd].
  split; [lia|]. apply h_hash_range, HW.
Qed.

Lemma count_sketch_cell_sum (G : Globals) (l : list Z) sk j c :
  0 <= j < D G -> 0 <= c < W G -> in_range sk j c ->
  sketch_get (count_sketch G l sk) j c
  = sketch_get sk j c + foldr (fun x acc => contribution G j c x 1 + acc) 0 l.
Proof.
  intros Hj Hc Hr. rewrite count_sketch_ops.
  rewrite apply_ops_cell; [|apply item_ops_nonneg; lia|lia|lia|exact Hr].
  f_equal. induction l as [|x l IH]; simpl; [reflexivity|].
  rewrite ops_sum_app, IH, ops_sum_item_ops by assumption. reflexivity.
Qed.

(** X5.  After a batch, every cell of the sketch has grown by the sum
    of the signs of the batch's items that fall into its bucket in its
    row. *)
Theorem count_sketch_cell (G : Globals) (f_batch : list Z)
  (sk : list (list Z)) (j c : Z) :
  sketch_shape G sk -> 0 <= j < D G -> 0 <= c < W G ->
  sketch_get (count_sketch G f_batch sk) j c
  = sketch_get sk j c
    + foldr (fun x acc =>
               (if h_hash G x (np_get (a G) j) (np_get (b G) j) =? c
                then g_hash G x (np_get (a G) (j + D G)) (np_get (b G) (j + D G))
                else 0) + acc) 0 f_batch.
Proof.
  intros Hs Hj Hc.
  rewrite count_sketch_cell_sum
    by (try assumption; eapply sketch_shape_in_range; eassumption).
  f_equal. induction f_batch as [|x l IH]; simpl; [reflexivity|].
  rewrite IH. unfold contribution. rewrite Z.mul_1_r. reflexivity.
Qed.

Lemma count_sketch_cell_witness :
  sketch_shape G_2x3 (sketch st_2x3)
  /\ sketch_get (count_sketch G_2x3 [1; 1; 2; 3; 3; 1] (sketch st_2x3)) 1 2 = 2.
Proof.
  assert (Hs : sketch_shape G_2x3 (sketch st_2x3)) by reflexivity.
  split; [exact Hs|].
  rewrite (count_sketch_cell G_2x3 [1; 1; 2; 3; 3; 1] (sketch st_2x3) 1 2 Hs);
    [reflexivity | split; [discriminate | reflexivity]
                 | split; [discriminate | reflexivity]].
Defined.

(** ** The sketch against the histogram *)

Lemma contribution_add (G : Globals) j c x m n :
  contribution G j c x (m + n) = contribution G j c x m + contribution G j c x n.
Proof. unfold contribution. destruct (_ =? c); lia. Qed.

Lemma sketch_get_zeros rows cols j k :
  sketch_get (replicate rows (replicate cols 0)) j k = 0.
Proof.
  unfold sketch_get.
  destruct (replicate rows (replicate cols 0) !! Z.to_nat j) as [row|] eqn:E;
    [|reflexivity].
  apply lookup_replicate_1 in E as [-> _]. simpl.
  destruct (replicate cols 0 !! Z.to_nat k) as [x|] eqn:E2; [|reflexivity].
  apply lookup_replicate_1 in E2 as [-> _]. reflexivity.
Qed.

Lemma consistent_step (G : Globals) batch st :
  sketch_shape G (sketch st)
  /\ (forall j c, 0 <= j < D G -> 0 <= c < W G ->
        sketch_get (sketch st) j c
        = dict_sum (contribution G j c) (histogram st)) ->
  let st' := process_batch G batch st in
  sketch_shape G (sketch st')
  /\ (forall j c, 0 <= j < D G -> 0 <= c < W G ->
        sketch_get (sketch st') j c
        = dict_sum (contribution G j c) (histogram st')).
Proof.
  intros [Hshape Hcell] st'. subst st'.
  destruct (THRESHOLD <=? (streamLength st).1) eqn:E.
  - rewrite (process_batch_skip G batch st E). auto.
  - rewrite (process_batch_run G batch st E). cbn [histogram sketch]. split.
    + unfold sketch_shape in *. rewrite count_sketch_shape. exact Hshape.
    + intros j c Hj Hc.
      rewrite count_sketch_cell_sum
        by (try assumption; eapply sketch_shape_in_range; eassumption).
      rewrite dict_sum_histogram_update by (intros; apply contribution_add).
      rewrite Hcell by assumption. reflexivity.
Qed.

Lemma ingest_consistent (G : Globals) (st0 : State) (stream : list (list Z)) :
  histogram st0 = [] ->
  sketch st0 = replicate (Z.to_nat (D G)) (replicate (Z.to_nat (W G)) 0) ->
  let st := ingest G stream st0 in
  sketch_shape G (sketch st)
  /\ (forall j c, 0 <= j < D G -> 0 <= c < W G ->
        sketch_get (sketch st) j c
        = dict_sum (contribution G j c) (histogram st)).
Proof.
  intros Hh Hsk.
  induction stream as [|batch stream IH] using rev_ind; intros st; subst st.
  - unfold ingest. simpl. rewrite Hh, Hsk. split.
    + unfold sketch_shape. change (List.map length ?l) with (length <$> l).
      rewrite fmap_replicate, length_replicate. reflexivity.
    + intros. apply sketch_get_zeros.
  - rewrite ingest_snoc. apply consistent_step, IH.
Qed.

(** X6.  Whatever the stream, after the initialisation and any number of
    batches the sketch has [D] rows of [W] cells, and the cell of row [j]
    and column [c] holds the sum, over the items of the histogram whose
    bucket in row [j] is [c], of the item's sign times its count. *)
Theorem sketch_matches_histogram (d w l r k : Z) (draw_a draw_b : nat -> Z)
  (G : Globals) (st0 : State) (stream : list (list Z)) :
  main_init d w l r k draw_a draw_b = Ok (G, st0) ->
  let st := ingest G stream st0 in
  sketch_shape G (sketch st)
  /\ (forall j c, 0 <= j < D G -> 0 <= c < W G ->
        sketch_get (sketch st) j c
        = dict_sum
            (fun item count =>
               if h_hash G item (np_get (a G) j) (np_get (b G) j) =? c
               then g_hash G item (np_get (a G) (j + D G))
                           (np_get (b G) (j + D G)) * count
               else 0)
            (histogram st)).
Proof.
  intros Hinit.
  apply main_init_facts in Hinit as (_ & _ & _ & _ & _ & Hsk & _ & Hh & _).
  apply ingest_consistent; assumption.
Qed.

Lemma sketch_matches_histogram_witness :
  main_init 2 3 1 9 1 (fun i => 2 + 17 * Z.of_nat i) (fun i => 5 * Z.of_nat i)
  = Ok (G_2x3, st_2x3)
  /\ sketch_get (sketch (ingest G_2x3 [[1; 1; 2]; [3; 12; 3; 1]] st_2x3)) 0 0
     = dict_sum
         (fun item count =>
            if h_hash G_2x3 item (np_get (a G_2x3) 0) (np_get (b G_2x3) 0) =? 0
            then g_hash G_2x3 item (np_get (a G_2x3) (0 + D G_2x3))
                        (np_get (b G_2x3) (0 + D G_2x3)) * count
            else 0)
         (histogram (ingest G_2x3 [[1; 1; 2]; [3; 12; 3; 1]] st_2x3)).
Proof.
  assert (H : main_init 2 3 1 9 1 (fun i => 2 + 17 * Z.of_nat i)
                (fun i => 5 * Z.of_nat i) = Ok (G_2x3, st_2x3)) by reflexivity.
  split; [exact H|].
  apply (proj2 (sketch_matches_histogram _ _ _ _ _ _ _ _ _
                  [[1; 1; 2]; [3; 12; 3; 1]] H));
    split; first [discriminate | reflexivity].
Defined.

(** *** No cell exceeds the number of admitted items *)

Lemma contribution_bound (G : Globals) j c x m :
  0 <= m -> Z.abs (contribution G j c x m) <= m.
Proof.
  intros Hm. unfold contribution. destruct (_ =? c); [|lia].
  destruct (g_hash_sign G x (np_get (a G) (j + D G)) (np_get (b G) (j + D G)))
    as [-> | ->]; lia.
Qed.

Lemma dict_sum_bound (G : Globals) j c (h : dict Z) :
  Forall (fun kv : Z * Z => 0 <= kv.2) h ->
  Z.abs (dict_sum (contribution G j c) h) <= total_count h.
Proof.
  unfold total_count. induction 1 as [|[x m] h Hm _ IH]; simpl.
  - lia.
  - pose proof (contribution_bound G j c x m Hm). simpl in *. lia.
Qed.

Lemma dict_values_nonneg (h : dict Z) :
  NoDup (dict_keys h) ->
  (forall k c, dict_get h k = Some c -> 0 < c) ->
  Forall (fun kv : Z * Z => 0 <= kv.2) h.
Proof.
  intros Hnd Hpos. apply Forall_forall. intros [k c] Hin.
  apply list_elem_of_In, (dict_In_get h k c Hnd), Hpos in Hin. simpl. lia.
Qed.

(** X7.  Whatever the stream, no cell of the sketch exceeds, in
    magnitude, the number [streamLength[1]] of admitted items. *)
Theorem sketch_cell_bound (d w l r k : Z) (draw_a draw_b : nat -> Z)
  (G : Globals) (st0 : State) (stream : list (list Z)) (j c : Z) :
  main_init d w l r k draw_a draw_b = Ok (G, st0) ->
  0 <= j < D G -> 0 <= c < W G ->
  Z.abs (sketch_get (sketch (ingest G stream st0)) j c)
  <= (streamLength (ingest G stream st0)).2.
Proof.
  intros Hinit Hj Hc.
  apply main_init_facts in Hinit as (_ & _ & _ & _ & _ & Hsk & Hs & Hh & _).
  destruct (ingest_consistent G st0 stream Hh Hsk) as [_ Hcell].
  destruct (ingest_bookkeeping G st0 stream Hs Hh) as (Hnd & Hpos & Hsum & _).
  rewrite Hcell by assumption. rewrite <- Hsum.
  apply dict_sum_bound, dict_values_nonneg; [exact Hnd|].
  intros k0 c0 H0. apply (Hpos k0 c0 H0).
Qed.

Lemma sketch_cell_bound_witness :
  main_init 1 1 1 9 1 (fun _ => 0) (fun _ => 0) = Ok (G_1x1, st_1x1)
  /\ Z.abs (sketch_get (sketch (ingest G_1x1 [[1; 2; 2]; [4; 12]] st_1x1)) 0 0)
     <= (streamLength (ingest G_1x1 [[1; 2; 2]; [4; 12]] st_1x1)).2.
Proof.
  assert (H : main_init 1 1 1 9 1 (fun _ => 0) (fun _ => 0) = Ok (G_1x1, st_1x1))
    by reflexivity.
  split; [exact H|].
  apply (sketch_cell_bound _ _ _ _ _ _ _ _ _ [[1; 2; 2]; [4; 12]] 0 0 H);
    split; first [discriminate | reflexivity].
Defined.

(** ** [process_batch], cell by cell *)

Lemma dict_sum_batch_items (w : Z -> Z -> Z) (l : list Z) :
  (forall x m n, w x (m + n) = w x m + w x n) ->
  dict_sum w (reduceByKey_collectAsMap (List.map (fun s => (s, 1)) l))
  = foldr (fun x acc => w x 1 + acc) 0 l.
Proof.
  intros Hw. unfold reduceByKey_collectAsMap.
  rewrite dict_sum_fold_add by exact Hw. rewrite dict_sum_ones. reflexivity.
Qed.

Lemma contribution_sum_signs (G : Globals) j c (l : list Z) :
  foldr (fun x acc => contribution G j c x 1 + acc) 0 l
  = foldr (fun x acc =>
             (if h_hash G x (np_get (a G) j) (np_get (b G) j) =? c
              then g_hash G x (np_get (a G) (j + D G)) (np_get (b G) (j + D G))
              else 0) + acc) 0 l.
Proof.
  induction l as [|x l IH]; simpl; [reflexivity|].
  rewrite IH. unfold contribution. rewrite Z.mul_1_r. reflexivity.
Qed.

Lemma sketch_shape_count_sketch (G : Globals) l sk :
  sketch_shape G sk -> sketch_shape G (count_sketch G l sk).
Proof. unfold sketch_shape. rewrite count_sketch_shape. auto. Qed.

(** C6.  On a state whose sketch has [D] rows of [W > 0] cells: a batch
    that arrives when [streamLength[0]] has reached the threshold leaves
    the whole state as it is.  Otherwise [streamLength[0]] grows by the
    size of the batch, [streamLength[1]] by the number of its items inside
    [[left, right]], every item that occurs [m > 0] times among these has
    its histogram entry raised by [m] (starting from 0 when it is new)
    while the other entries stay, and the sketch receives the update of
    weight [m] for each distinct admitted item: every cell [(j, c)] grows
    by the sum, over the distinct admitted items whose bucket in row [j]
    is [c], of the item's sign times [m], and the sketch keeps its
    shape. *)
Theorem process_batch_spec (G : Globals) (batch : list Z) (st : State) :
  0 < W G ->
  sketch_shape G (sketch st) ->
  let st' := process_batch G batch st in
  let admitted := List.filter (fun x => (left G <=? x) && (x <=? right G)) batch in
  let batch_items := reduceByKey_collectAsMap (List.map (fun s => (s, 1)) admitted) in
  if THRESHOLD <=? (streamLength st).1 then st' = st
  else
    (streamLength st').1 = (streamLength st).1 + Z.of_nat (length batch)
    /\ (streamLength st').2 = (streamLength st).2 + Z.of_nat (length admitted)
    /\ (forall item,
          dict_get (histogram st') item
          = if multiplicity item admitted =? 0 then dict_get (histogram st) item
            else Some (default 0 (dict_get (histogram st) item)
                       + multiplicity item admitted))
    /\ NoDup (dict_keys batch_items)
    /\ (forall item m, In (item, m) batch_items
                       <-> 0 < m /\ m = multiplicity item admitted)
    /\ sketch st' = fold_left (fun sk im => Update G im.1 im.2 sk)
                              batch_items (sketch st)
    /\ sketch_shape G (sketch st')
    /\ (forall j c, 0 <= j < D G -> 0 <= c < W G ->
          sketch_get (sketch st') j c
          = sketch_get (sketch st) j c
            + dict_sum
                (fun item m =>
                   if h_hash G item (np_get (a G) j) (np_get (b G) j) =? c
                   then g_hash G item (np_get (a G) (j + D G))
                               (np_get (b G) (j + D G)) * m
                   else 0)
                batch_items).
Proof.
  intros HW Hshape st' admitted batch_items. subst st'.
  destruct (THRESHOLD <=? (streamLength st).1) eqn:E.
  - apply process_batch_skip, E.
  - rewrite (process_batch_run G batch st E).
    cbn [streamLength histogram sketch fst snd].
    change (List.filter (in_interval G) batch) with admitted.
    fold batch_items.
    split; [reflexivity|]. split; [reflexivity|].
    split; [|split; [|split; [|split; [|split]]]].
    + intros item. apply histogram_update_get.
    + apply batch_items_NoDup.
    + apply batch_items_In.
    + apply count_sketch_per_item.
    + apply sketch_shape_count_sketch, Hshape.
    + intros j c Hj Hc.
      rewrite count_sketch_cell_sum
        by (try assumption; eapply sketch_shape_in_range; eassumption).
      f_equal. symmetry.
      apply (dict_sum_batch_items (contribution G j c)).
      intros. apply contribution_add.
Qed.

(** The batch 1, 1, 2, 3, 12, 3, 1 on the empty 2 x 3 sketch: item 3,
    admitted twice, has bucket 2 and sign [+1] in row 1. *)
Lemma process_batch_spec_witness :
  0 < W G_2x3
  /\ sketch_shape G_2x3 (sketch st_2x3)
  /\ sketch_get (sketch (process_batch G_2x3 [1; 1; 2; 3; 12; 3; 1] st_2x3)) 1 2
     = 0 + 2
  /\ dict_get (histogram (process_batch G_2x3 [1; 1; 2; 3; 12; 3; 1] st_2x3)) 3
     = Some 2.
Proof.
  assert (HW : 0 < W G_2x3) by reflexivity.
  assert (Hs : sketch_shape G_2x3 (sketch st_2x3)) by reflexivity.
  split; [exact HW|]. split; [exact Hs|].
  pose proof (process_batch_spec G_2x3 [1; 1; 2; 3; 12; 3; 1] st_2x3 HW Hs) as H.
  cbv zeta in H.
  change (THRESHOLD <=? (streamLength st_2x3).1) with false in H.
  cbv iota in H.
  destruct H as (_ & _ & Hh & _ & _ & _ & _ & Hcell).
  split.
  - rewrite (Hcell 1 2); [reflexivity | split; [discriminate | reflexivity]
                         | split; [discriminate | reflexivity]].
  - rewrite Hh. reflexivity.
Defined.

(** ** Counters during ingestion *)

(** C9, as the program has it.  Under [process_batch] the two running
    counts never decrease and no histogram entry decreases.  The sketch
    changes by the cell updates of the admitted items (none when the
    batch is skipped): one per admitted occurrence and row, at the
    item's bucket, of the item's sign, which is [+1] or [-1].  On a sketch
    of [D] rows and [W > 0] columns every cell therefore changes by the
    sum of the signs of the admitted occurrences that fall into it: a
    cell is a signed accumulator, not a monotone counter.  Computing the
    approximate histogram changes none of the running counts, the
    histogram and the sketch. *)
Theorem counters_during_ingestion (G : Globals) (batch : list Z) (st : State) :
  let st' := process_batch G batch st in
  let st_e := compute_approx_histogram G st in
  let admitted :=
    if THRESHOLD <=? (streamLength st).1 then []
    else List.filter (fun x => (left G <=? x) && (x <=? right G)) batch in
  ((streamLength st).1 <= (streamLength st').1
   /\ (streamLength st).2 <= (streamLength st').2)
  /\ (forall item c, dict_get (histogram st) item = Some c ->
        exists c', dict_get (histogram st') item = Some c' /\ c <= c')
  /\ (sketch st' = apply_ops (flat_map (item_ops G 1) admitted) (sketch st)
      /\ Forall (fun o : Z * Z * Z => o.2 = 1 \/ o.2 = -1)
                (flat_map (item_ops G 1) admitted))
  /\ (0 < W G -> sketch_shape G (sketch st) ->
      forall j c, 0 <= j < D G -> 0 <= c < W G ->
        sketch_get (sketch st') j c
        = sketch_get (sketch st) j c
          + foldr (fun x acc =>
                     (if h_hash G x (np_get (a G) j) (np_get (b G) j) =? c
                      then g_hash G x (np_get (a G) (j + D G))
                                  (np_get (b G) (j + D G))
                      else 0) + acc) 0 admitted)
  /\ (streamLength st_e = streamLength st /\ histogram st_e = histogram st
      /\ sketch st_e = sketch st).
Proof.
  intros st' st_e admitted. subst st' st_e admitted.
  destruct (compute_approx_histogram_frame G st) as (F1 & F2 & F3 & _).
  destruct (THRESHOLD <=? (streamLength st).1) eqn:E.
  - rewrite (process_batch_skip G batch st E).
    split; [lia|]. split; [|split; [|split]].
    + intros item c Hc. exists c. split; [exact Hc | lia].
    + split; [reflexivity | constructor].
    + intros _ _ j c _ _. simpl. lia.
    + auto.
  - rewrite (process_batch_run G batch st E).
    cbn [streamLength histogram sketch fst snd].
    change (List.filter (fun x => (left G <=? x) && (x <=? right G)) batch)
      with (List.filter (in_interval G) batch).
    split; [lia|]. split; [|split; [|split]].
    + intros item c Hc. rewrite histogram_update_get, Hc.
      pose proof (multiplicity_nonneg item (List.filter (in_interval G) batch)).
      destruct (multiplicity item _ =? 0).
      * exists c. split; [reflexivity | lia].
      * eexists. split; [reflexivity | simpl; lia].
    + split; [apply count_sketch_ops | apply item_ops_units].
    + intros HW Hshape j c Hj Hc.
      rewrite count_sketch_cell_sum
        by (try assumption; eapply sketch_shape_in_range; eassumption).
      rewrite contribution_sum_signs. reflexivity.
    + auto.
Qed.

(** Item 3 once, then twice more: its count goes from 1 to 3; item 2,
    of sign [-1], takes the single cell from 1 to 0. *)
Lemma counters_during_ingestion_witness :
  dict_get (histogram (process_batch G_1x1 [3] st_1x1)) 3 = Some 1
  /\ (exists c', dict_get (histogram (process_batch G_1x1 [3; 3]
                                        (process_batch G_1x1 [3] st_1x1))) 3 = Some c'
                 /\ 1 <= c')
  /\ 0 < W G_1x1
  /\ sketch_shape G_1x1 (sketch (process_batch G_1x1 [3] st_1x1))
  /\ sketch_get (sketch (process_batch G_1x1 [2; 12]
                           (process_batch G_1x1 [3] st_1x1))) 0 0
     = 1 + (-1 + 0).
Proof.
  assert (H : dict_get (histogram (process_batch G_1x1 [3] st_1x1)) 3 = Some 1)
    by reflexivity.
  assert (HW : 0 < W G_1x1) by reflexivity.
  assert (Hs : sketch_shape G_1x1 (sketch (process_batch G_1x1 [3] st_1x1)))
    by reflexivity.
  split; [exact H|]. split.
  - exact (proj1 (proj2 (counters_during_ingestion G_1x1 [3; 3]
                           (process_batch G_1x1 [3] st_1x1))) 3 1 H).
  - split; [exact HW|]. split; [exact Hs|].
    exact (proj1 (proj2 (proj2 (proj2
             (counters_during_ingestion G_1x1 [2; 12]
                (process_batch G_1x1 [3] st_1x1))))) HW Hs 0 0
             (conj (Z.le_refl 0) eq_refl) (conj (Z.le_refl 0) eq_refl)).
Defined.

(** ** Estimates *)

Lemma np_sort_replicate n m : np_sort (replicate n m) = replicate n m.
Proof.
  induction n as [|n IH]; simpl; [reflexivity|].
  rewrite IH. destruct n; simpl; [reflexivity|].
  rewrite Z.leb_refl. reflexivity.
Qed.

Lemma nth_replicate_lt n (m : Z) i : (i < n)%nat -> nth i (replicate n m) 0 = m.
Proof.
  intros Hi. rewrite nth_lookup, (lookup_replicate_2 n m i Hi). reflexivity.
Qed.

Lemma np_median_replicate n m :
  (0 < n)%nat -> fl_equiv (np_median (replicate n m)) (of_int m).
Proof.
  intros Hn.
  assert (Hne : replicate n m <> []) by (destruct n; [lia | discriminate]).
  pose proof (np_median_middle _ Hne) as H.
  rewrite np_sort_replicate in H. unfold middle in H.
  rewrite length_replicate in H.
  assert (Hdiv : (n / 2 < n)%nat) by (apply Nat.div_lt; lia).
  rewrite !nth_replicate_lt in H by lia.
  destruct (np_median (replicate n m)) as [|q]; simpl in *.
  - destruct (Nat.odd n); exact H.
  - destruct (Nat.odd n); simpl in H; rewrite H; [reflexivity|].
    unfold Qeq. simpl. lia.
Qed.

Lemma map_constant {A : Type} (f : A -> Z) (l : list A) m :
  (forall x, In x l -> f x = m) -> List.map f l = replicate (length l) m.
Proof.
  induction l as [|x l IH]; intros H; simpl; [reflexivity|].
  rewrite (H x) by (left; reflexivity). f_equal.
  apply IH. intros y Hy. apply H. right. exact Hy.
Qed.

Lemma length_np_arange lo hi : length (np_arange lo hi) = Z.to_nat (hi - lo).
Proof. unfold np_arange. rewrite length_map, length_seq. reflexivity. Qed.

(** When no other key shares the bucket of [u], the cell of [u] holds the
    sign of [u] times its count. *)
Lemma dict_sum_alone (G : Globals) j (h : dict Z) u m :
  NoDup (dict_keys h) ->
  dict_get h u = Some m ->
  (forall x, In x (dict_keys h) -> x <> u ->
     h_hash G x (np_get (a G) j) (np_get (b G) j)
     <> h_hash G u (np_get (a G) j) (np_get (b G) j)) ->
  dict_sum (contribution G j (h_hash G u (np_get (a G) j) (np_get (b G) j))) h
  = g_hash G u (np_get (a G) (j + D G)) (np_get (b G) (j + D G)) * m.
Proof.
  intros Hnd Hu Hfree.
  assert (Hother : forall h' : dict Z,
            (forall x, In x (dict_keys h') -> x <> u) ->
            (forall x, In x (dict_keys h') ->
               h_hash G x (np_get (a G) j) (np_get (b G) j)
               <> h_hash G u (np_get (a G) j) (np_get (b G) j)) ->
            dict_sum (contribution G j
                        (h_hash G u (np_get (a G) j) (np_get (b G) j))) h' = 0).
  { induction h' as [|[x n] h' IH]; intros Hne Hfr; simpl; [reflexivity|].
    rewrite IH by (intros; first [apply Hne | apply Hfr]; right; assumption).
    unfold contribution.
    assert (Hx := Hfr x (or_introl eq_refl)). apply Z.eqb_neq in Hx.
    rewrite Hx. reflexivity. }
  induction h as [|[x n] h IH]; simpl in *; [discriminate|].
  apply NoDup_cons in Hnd as [Hx Hnd].
  destruct (x =? u) eqn:E.
  - apply Z.eqb_eq in E; subst x. injection Hu as ->.
    rewrite Hother.
    + unfold contribution. rewrite Z.eqb_refl. lia.
    + intros y Hy ->. apply Hx, list_elem_of_In, Hy.
    + intros y Hy. apply Hfree; [right; exact Hy|].
      intros ->. apply Hx, list_elem_of_In, Hy.
  - apply Z.eqb_neq in E. rewrite IH; try assumption.
    + unfold contribution.
      assert (Hx' := Hfree x (or_introl eq_refl) E). apply Z.eqb_neq in Hx'.
      rewrite Hx'. reflexivity.
    + intros y Hy. apply Hfree. right. exact Hy.
Qed.

(** X8.  Whatever the stream, with [D > 0] and [W > 0]: when no other
    item of the histogram shares the bucket of [u] in any row, the estimate
    of [u] is its true frequency, and that is what the approximate
    histogram stores for [u]. *)
Theorem estimate_exact_without_collision (d w l r k : Z)
  (draw_a draw_b : nat -> Z) (G : Globals) (st0 : State)
  (stream : list (list Z)) (u m : Z) :
  main_init d w l r k draw_a draw_b = Ok (G, st0) ->
  0 < D G -> 0 < W G ->
  dict_get (histogram (ingest G stream st0)) u = Some m ->
  (forall j x, 0 <= j < D G ->
     In x (dict_keys (histogram (ingest G stream st0))) -> x <> u ->
     h_hash G x (np_get (a G) j) (np_get (b G) j)
     <> h_hash G u (np_get (a G) j) (np_get (b G) j)) ->
  exists v,
    dict_get (approx_histogram
                (compute_approx_histogram G (ingest G stream st0))) u = Some v
    /\ v = estimate G (sketch (ingest G stream st0)) u
    /\ fl_equiv v (of_int m).
Proof.
  intros Hinit HD HW Hu Hfree.
  apply main_init_facts in Hinit as (_ & _ & _ & _ & _ & Hsk & Hs & Hh & _).
  destruct (ingest_consistent G st0 stream Hh Hsk) as [_ Hcell].
  destruct (ingest_bookkeeping G st0 stream Hs Hh) as (Hnd & _).
  set (st := ingest G stream st0) in *.
  eexists. split; [|split; [reflexivity|]].
  - apply compute_approx_histogram_get.
    destruct (in_dec Z.eq_dec u (dict_keys (histogram st))) as [Hin|Hin];
      [exact Hin|].
    apply dict_get_None_keys in Hin. congruence.
  - unfold estimate, approx_freq_list.
    rewrite (map_constant _ _ m).
    + rewrite length_np_arange. apply np_median_replicate. lia.
    + intros j Hj. apply np_arange_In in Hj.
      rewrite Hcell by (try assumption; apply h_hash_range, HW).
      rewrite (dict_sum_alone G j (histogram st) u m Hnd Hu)
        by (intros; apply Hfree; assumption).
      destruct (g_hash_sign G u (np_get (a G) (j + D G)) (np_get (b G) (j + D G)))
        as [-> | ->]; lia.
Qed.

Lemma estimate_exact_without_collision_witness :
  main_init 2 3 1 9 1 (fun _ => 0) (fun _ => 0) = Ok (G_plain, st_2x3)
  /\ dict_get (histogram (ingest G_plain [[1; 2]; [12; 1]] st_2x3)) 1 = Some 2
  /\ exists v,
       dict_get (approx_histogram
                   (compute_approx_histogram G_plain
                      (ingest G_plain [[1; 2]; [12; 1]] st_2x3))) 1 = Some v
       /\ v = estimate G_plain (sketch (ingest G_plain [[1; 2]; [12; 1]] st_2x3)) 1
       /\ fl_equiv v (of_int 2).
Proof.
  assert (H : main_init 2 3 1 9 1 (fun _ => 0) (fun _ => 0)
              = Ok (G_plain, st_2x3)) by reflexivity.
  assert (Hu : dict_get (histogram (ingest G_plain [[1; 2]; [12; 1]] st_2x3)) 1
               = Some 2) by reflexivity.
  split; [exact H|]. split; [exact Hu|].
  apply (estimate_exact_without_collision _ _ _ _ _ _ _ _ _
           [[1; 2]; [12; 1]] 1 2 H); [reflexivity | reflexivity | exact Hu |].
  intros j x Hj Hx Hne. vm_compute in Hx.
  assert (Hx2 : x = 2) by (destruct Hx as [Hx|[Hx|[]]]; congruence).
  assert (Hj2 : j = 0 \/ j = 1) by (change (D G_plain) with 2 in Hj; lia).
  subst x. destruct Hj2 as [-> | ->]; vm_compute; discriminate.
Defined.

(** X9.  On the all-zero sketch of a fresh start the estimate of every
    item is 0 when [D > 0]; with [D <= 0] there is no row and the estimate
    of every item, from every sketch, is [nan]. *)
Theorem estimate_fresh (G : Globals) (sk : list (list Z)) (rows cols : nat) (u : Z) :
  if 0 <? D G
  then fl_equiv (estimate G (replicate rows (replicate cols 0)) u) (of_int 0)
  else estimate G sk u = nan.
Proof.
  unfold estimate, approx_freq_list.
  destruct (0 <? D G) eqn:E.
  - apply Z.ltb_lt in E. rewrite (map_constant _ _ 0).
    + rewrite length_np_arange. apply np_median_replicate. lia.
    + intros j _. rewrite sketch_get_zeros. lia.
  - apply Z.ltb_ge in E. unfold np_arange.
    replace (Z.to_nat (D G - 0)) with 0%nat by lia. reflexivity.
Qed.

(** ** Batches one after the other *)

Lemma multiplicity_app x l1 l2 :
  multiplicity x (l1 ++ l2) = multiplicity x l1 + multiplicity x l2.
Proof. unfold multiplicity. rewrite count_occ_app. lia. Qed.

(** X10.  As long as the first of two batches does not reach the
    threshold, processing them one after the other leaves the same counts,
    the same sketch, the same stop flag and the same histogram entries as
    processing their concatenation as one batch. *)
Theorem process_batch_split (G : Globals) (b1 b2 : list Z) (st : State) :
  (streamLength st).1 + Z.of_nat (length b1) < THRESHOLD ->
  let st2 := process_batch G b2 (process_batch G b1 st) in
  let st12 := process_batch G (b1 ++ b2) st in
  streamLength st2 = streamLength st12
  /\ sketch st2 = sketch st12
  /\ stopping_condition st2 = stopping_condition st12
  /\ approx_histogram st2 = approx_histogram st12
  /\ forall item, dict_get (histogram st2) item = dict_get (histogram st12) item.
Proof.
  intros Hlt st2 st12. subst st2 st12.
  assert (E0 : (THRESHOLD <=? (streamLength st).1) = false)
    by (apply Z.leb_gt; lia).
  rewrite (process_batch_run G (b1 ++ b2) st E0).
  rewrite (process_batch_run G b1 st E0).
  rewrite process_batch_run
    by (cbn [streamLength fst]; apply Z.leb_gt; lia).
  cbn [streamLength histogram sketch approx_histogram stopping_condition fst snd].
  rewrite List.filter_app, !length_app, !Nat2Z.inj_add.
  split; [f_equal; lia|]. split; [|split; [|split; [reflexivity|]]].
  - apply count_sketch_split. reflexivity.
  - assert ((THRESHOLD <=? (streamLength st).1 + Z.of_nat (length b1)) = false)
      as -> by (apply Z.leb_gt; lia).
    rewrite Z.add_assoc. reflexivity.
  - intros item. rewrite !histogram_update_get, multiplicity_app.
    pose proof (multiplicity_nonneg item (List.filter (in_interval G) b1)).
    pose proof (multiplicity_nonneg item (List.filter (in_interval G) b2)).
    set (m1 := multiplicity item (List.filter (in_interval G) b1)) in *.
    set (m2 := multiplicity item (List.filter (in_interval G) b2)) in *.
    destruct (m1 =? 0) eqn:E1, (m2 =? 0) eqn:E2;
      [apply Z.eqb_eq in E1 | apply Z.eqb_eq in E1
       | apply Z.eqb_neq in E1 | apply Z.eqb_neq in E1];
      [apply Z.eqb_eq in E2 | apply Z.eqb_neq in E2
       | apply Z.eqb_eq in E2 | apply Z.eqb_neq in E2].
    + replace (m1 + m2 =? 0) with true by (symmetry; apply Z.eqb_eq; lia).
      reflexivity.
    + replace (m1 + m2 =? 0) with false by (symmetry; apply Z.eqb_neq; lia).
      f_equal. lia.
    + replace (m1 + m2 =? 0) with false by (symmetry; apply Z.eqb_neq; lia).
      f_equal. lia.
    + replace (m1 + m2 =? 0) with false by (symmetry; apply Z.eqb_neq; lia).
      simpl. f_equal. lia.
Qed.

Lemma process_batch_split_witness :
  (streamLength st_2x3).1 + Z.of_nat (length [1; 12; 2]) < THRESHOLD
  /\ sketch (process_batch G_2x3 [2; 3] (process_batch G_2x3 [1; 12; 2] st_2x3))
     = sketch (process_batch G_2x3 ([1; 12; 2] ++ [2; 3]) st_2x3).
Proof.
  assert (H : (streamLength st_2x3).1 + Z.of_nat (length [1; 12; 2]) < THRESHOLD)
    by reflexivity.
  split; [exact H|].
  exact (proj1 (proj2 (process_batch_split G_2x3 [1; 12; 2] [2; 3] st_2x3 H))).
Defined.

(** ** The stop signal *)

Lemma stop_step (G : Globals) batch st n :
  0 <= n -> Z.of_nat (length batch) <= n ->
  (stopping_condition st = true <-> THRESHOLD <= (streamLength st).1)
  /\ (streamLength st).1 < THRESHOLD + n ->
  let st' := process_batch G batch st in
  (stopping_condition st' = true <-> THRESHOLD <= (streamLength st').1)
  /\ (streamLength st').1 < THRESHOLD + n.
Proof.
  intros Hn Hb [Hflag Hseen] st'. subst st'.
  destruct (THRESHOLD <=? (streamLength st).1) eqn:E.
  - rewrite (process_batch_skip G batch st E). auto.
  - rewrite (process_batch_run G batch st E).
    cbn [streamLength stopping_condition fst].
    apply Z.leb_gt in E. split; [|lia].
    destruct (THRESHOLD <=? (streamLength st).1 + Z.of_nat (length batch)) eqn:E2.
    + apply Z.leb_le in E2. tauto.
    + apply Z.leb_gt in E2. rewrite Hflag. lia.
Qed.

Lemma ingest_stop (G : Globals) (st0 : State) (stream : list (list Z)) n :
  streamLength st0 = (0, 0) -> stopping_condition st0 = false ->
  0 <= n -> Forall (fun batch => Z.of_nat (length batch) <= n) stream ->
  let st := ingest G stream st0 in
  (stopping_condition st = true <-> THRESHOLD <= (streamLength st).1)
  /\ (streamLength st).1 < THRESHOLD + n.
Proof.
  intros Hs Hf Hn.
  induction stream as [|batch stream IH] using rev_ind; intros Hall st; subst st.
  - unfold ingest. simpl. rewrite Hs, Hf. simpl. unfold THRESHOLD. split; [|lia].
    split; [discriminate | lia].
  - apply Forall_app in Hall as [Hall Hb].
    apply Forall_inv in Hb.
    rewrite ingest_snoc. apply stop_step; [exact Hn | exact Hb | apply IH, Hall].
Qed.

(** X11.  Whatever the stream, the stop signal is set exactly when
    [streamLength[0]] has reached the threshold, and [streamLength[0]]
    stays below the threshold plus the size of the largest batch. *)
Theorem stop_signal (d w l r k : Z) (draw_a draw_b : nat -> Z)
  (G : Globals) (st0 : State) (stream : list (list Z)) (n : Z) :
  main_init d w l r k draw_a draw_b = Ok (G, st0) ->
  0 <= n -> Forall (fun batch => Z.of_nat (length batch) <= n) stream ->
  (stopping_condition (ingest G stream st0) = true
   <-> THRESHOLD <= (streamLength (ingest G stream st0)).1)
  /\ (streamLength (ingest G stream st0)).1 < THRESHOLD + n.
Proof.
  intros Hinit Hn Hall.
  apply main_init_facts in Hinit as (_ & _ & _ & _ & _ & _ & Hs & _ & _ & Hf).
  apply ingest_stop; assumption.
Qed.

Lemma stop_signal_witness :
  main_init 1 1 1 9 1 (fun _ => 0) (fun _ => 0) = Ok (G_1x1, st_1x1)
  /\ Forall (fun batch : list Z => Z.of_nat (length batch) <= 3) [[1; 2; 2]; [4; 12]]
  /\ (streamLength (ingest G_1x1 [[1; 2; 2]; [4; 12]] st_1x1)).1 < THRESHOLD + 3.
Proof.
  assert (H : main_init 1 1 1 9 1 (fun _ => 0) (fun _ => 0) = Ok (G_1x1, st_1x1))
    by reflexivity.
  assert (Hall : Forall (fun batch : list Z => Z.of_nat (length batch) <= 3)
                        [[1; 2; 2]; [4; 12]])
    by (repeat constructor; discriminate).
  split; [exact H|]. split; [exact Hall|].
  exact (proj2 (stop_signal _ _ _ _ _ _ _ _ _ [[1; 2; 2]; [4; 12]] 3 H
                  ltac:(discriminate) Hall)).
Defined.

(** ** The output section: which exceptions, and when *)

Lemma py_index_In {A : Type} (l : list A) i x : py_index l i = Ok x -> In x l.
Proof.
  unfold py_index.
  destruct ((0 <=? i) && (i <? Z.of_nat (length l))).
  - destruct (l !! Z.to_nat i) eqn:E; [|discriminate].
    intros [= <-]. apply list_elem_of_In. eapply list_elem_of_lookup_2, E.
  - destruct ((- Z.of_nat (length l) <=? i) && (i <? 0)); [|discriminate].
    destruct (l !! Z.to_nat (Z.of_nat (length l) + i)) eqn:E; [|discriminate].
    intros [= <-]. apply list_elem_of_In. eapply list_elem_of_lookup_2, E.
Qed.

Lemma py_index_outside {A : Type} (l : list A) i :
  ~ (- Z.of_nat (length l) <= i < Z.of_nat (length l)) ->
  py_index l i = Raise IndexError.
Proof.
  intros Hi. destruct (py_index l i) as [x|e] eqn:E.
  - apply py_index_Ok in E. tauto.
  - apply py_index_Raise in E. subst e. reflexivity.
Qed.

Lemma py_index_nat {A : Type} (l : list A) (i : nat) x :
  l !! i = Some x -> py_index l (Z.of_nat i) = Ok x.
Proof.
  intros H. unfold py_index.
  pose proof (lookup_lt_Some _ _ _ H).
  assert (((0 <=? Z.of_nat i) && (Z.of_nat i <? Z.of_nat (length l))) = true) as ->.
  { apply andb_true_iff. split; [apply Z.leb_le | apply Z.ltb_lt]; lia. }
  rewrite Nat2Z.id, H. reflexivity.
Qed.

Lemma fold_result_app {A B : Type} (f : B -> A -> result B) l1 l2 b :
  fold_result f (l1 ++ l2) b = fold_result f l1 b ≫= fold_result f l2.
Proof.
  unfold fold_result. rewrite fold_left_app.
  destruct (fold_left _ l1 (Ok b)) as [b'|e]; cbn [mbind result_bind].
  - reflexivity.
  - apply fold_result_from_Raise.
Qed.

Lemma fold_result_Raise_at {A B : Type} (f : B -> A -> result B) l x b :
  In x l -> (forall acc, exists e, f acc x = Raise e) ->
  exists e, fold_result f l b = Raise e.
Proof.
  intros Hin Hx. apply in_split in Hin as (l1 & l2 & ->).
  rewrite fold_result_app.
  destruct (fold_result f l1 b) as [b'|e]; cbn [mbind result_bind]; [|eauto].
  rewrite fold_result_cons. destruct (Hx b') as [e ->]. eauto.
Qed.

Section OutputKeys.
Variable G : Globals.
Variable desc_histogram : list (Z * Z).
Variable approx_histogram : dict float64.
Variable printing : bool.
Hypothesis keys_present :
  forall e, In e desc_histogram -> dict_get approx_histogram e.1 <> None.

Lemma lookup_present i e :
  py_index desc_histogram i = Ok e ->
  exists v, dict_lookup approx_histogram e.1 = Ok v.
Proof using keys_present.
  intros H. apply py_index_In, keys_present in H. unfold dict_lookup.
  destruct (dict_get approx_histogram e.1); [eauto | congruence].
Qed.

Lemma top_body_IndexError lv k e :
  top_body desc_histogram approx_histogram printing lv k = Raise e ->
  e = IndexError.
Proof using keys_present.
  unfold top_body.
  destruct (py_index desc_histogram k) as [x|e0] eqn:E1; cbn [mbind result_bind].
  - destruct (lookup_present _ _ E1) as [v ->]. discriminate.
  - intros [= <-]. eapply py_index_Raise, E1.
Qed.

Lemma tie_step_IndexError lv e :
  tie_step G desc_histogram approx_histogram printing lv = Raise e ->
  e = IndexError.
Proof using keys_present.
  unfold tie_step.
  destruct (py_index desc_histogram (K G - 1)) as [e1|e0] eqn:E1;
    cbn [mbind result_bind];
    [|intros [= <-]; eapply py_index_Raise, E1].
  destruct (lookup_present _ _ E1) as [x ->]. cbn [mbind result_bind].
  destruct (py_index desc_histogram (K G - 1 + count lv)) as [e2|e0] eqn:E2;
    cbn [mbind result_bind];
    [|intros [= <-]; eapply py_index_Raise, E2].
  destruct (lookup_present _ _ E2) as [y ->]. cbn [mbind result_bind].
  destruct (fl_eqb x y); [|discriminate].
  destruct (py_index desc_histogram (K G + (count lv + 1))) as [e3|e0] eqn:E3;
    cbn [mbind result_bind];
    [|intros [= <-]; eapply py_index_Raise, E3].
  destruct (lookup_present _ _ E3) as [z ->]. discriminate.
Qed.

Lemma tie_loop_IndexError fuel lv e :
  tie_loop G desc_histogram approx_histogram printing fuel lv = Raise e ->
  e = IndexError \/ e = OutOfFuel.
Proof using keys_present.
  revert lv. induction fuel as [|fuel IH]; intros lv; simpl.
  - intros [= <-]. right. reflexivity.
  - destruct (tie_step G desc_histogram approx_histogram printing lv)
      as [[lv'|]|e'] eqn:E; simpl.
    + apply IH.
    + discriminate.
    + intros [= <-]. left. eapply tie_step_IndexError, E.
Qed.

End OutputKeys.

Lemma rest_body_NameError lv k e : rest_body lv k = Raise e -> e = NameError.
Proof.
  unfold rest_body, read_var.
  destruct (true_freq lv); simpl; [|intros [= <-]; reflexivity].
  destruct (approx_freq lv); simpl; [discriminate | intros [= <-]; reflexivity].
Qed.

Lemma py_truediv_Raise x y e : py_truediv x y = Raise e -> e = ZeroDivisionError.
Proof.
  unfold py_truediv. destruct (y =? 0); [|discriminate].
  intros [= <-]. reflexivity.
Qed.

Lemma F2_estimate_value_Raise l adm e :
  F2_estimate_value l adm = Raise e -> e = ZeroDivisionError.
Proof.
  unfold F2_estimate_value. destruct l; [|discriminate].
  destruct (py_truediv 0 (adm ^ 2)) eqn:E; cbn [mbind result_bind];
    [discriminate|].
  intros [= <-]. eapply py_truediv_Raise, E.
Qed.

(** the exceptions of [statistics] when every ranked item has an estimate,
    stage by stage *)
Lemma statistics_exceptions (G : Globals) (st : State) e :
  (forall k, In k (dict_keys (histogram st)) ->
             dict_get (approx_histogram st) k <> None) ->
  statistics G st = Raise e ->
  e = IndexError \/ e = NameError \/ e = ZeroDivisionError.
Proof.
  intros Hkeys. unfold statistics.
  set (desc := sorted_reverse _ (histogram st)).
  assert (Hpresent : forall x, In x desc ->
                               dict_get (approx_histogram st) x.1 <> None).
  { intros x Hx. apply Hkeys. unfold dict_keys. apply in_map.
    apply (Permutation_in _ (sorted_reverse_Permutation
                               (fun item : Z * Z => item.2) (histogram st))), Hx. }
  set (lv0 := {| count := 1; item := None; true_freq := None;
                 approx_freq := None; avg_error_list := [];
                 F2_list := ([], []); lines := [] |}).
  destruct (fold_result _ (np_arange 0 (K G)) lv0) as [lv1|e1] eqn:E1;
    cbn [mbind result_bind].
  2:{ intros [= <-]. left.
      eapply (fold_result_Raise _ (fun e => e = IndexError)); [|exact E1].
      intros acc x e'. apply top_body_IndexError, Hpresent. }
  assert (Hc : count lv1 = 1).
  { eapply (fold_result_invariant _ (fun lv => count lv = 1)); [| |exact E1].
    - intros acc x acc'. apply top_body_count.
    - reflexivity. }
  destruct (tie_loop G desc (approx_histogram st) (K G <=? 20)
              (S (2 * length desc)) lv1) as [lv2|e2] eqn:E2;
    cbn [mbind result_bind].
  2:{ intros [= <-]. left.
      destruct (tie_loop_IndexError _ _ _ _ Hpresent _ _ _ E2) as [He|He];
        [exact He|].
      exfalso. revert He. eapply tie_loop_total; [| |exact E2]; [lia|].
      rewrite Hc.
      destruct (Z_lt_le_dec (K G) (- Z.of_nat (length desc))); [left|right]; lia. }
  destruct (fold_result rest_body _ lv2) as [lv3|e3] eqn:E3;
    cbn [mbind result_bind].
  2:{ intros [= <-]. right. left.
      eapply (fold_result_Raise _ (fun e => e = NameError)); [|exact E3].
      intros acc x e'. apply rest_body_NameError. }
  destruct (py_truediv _ _) as [f2|e4] eqn:E4; cbn [mbind result_bind].
  2:{ intros [= <-]. right. right. eapply py_truediv_Raise, E4. }
  destruct (F2_estimate_value _ _) as [f2e|e5] eqn:E5; cbn [mbind result_bind].
  - discriminate.
  - intros [= <-]. right. right. eapply F2_estimate_value_Raise, E5.
Qed.

Lemma compute_approx_histogram_keys (G : Globals) st k :
  In k (dict_keys (histogram (compute_approx_histogram G st))) ->
  dict_get (approx_histogram (compute_approx_histogram G st)) k <> None.
Proof.
  destruct (compute_approx_histogram_frame G st) as (_ & -> & _).
  intros Hk. rewrite (compute_approx_histogram_get G st k Hk). discriminate.
Qed.

(** X12.  The output section, run on any state, can only end in
    [IndexError], [NameError] or [ZeroDivisionError]: every item of the
    ranking has its estimate, so no lookup fails with [KeyError], and the
    loop always ends. *)
Theorem outputs_exceptions (G : Globals) (st : State) (e : exn) :
  outputs G st = Raise e ->
  e = IndexError \/ e = NameError \/ e = ZeroDivisionError.
Proof.
  unfold outputs. apply statistics_exceptions.
  apply compute_approx_histogram_keys.
Qed.

Lemma outputs_exceptions_witness :
  outputs G_1x1 (ingest G_1x1 [[7]] st_1x1) = Raise IndexError
  /\ (IndexError = IndexError \/ IndexError = NameError
      \/ IndexError = ZeroDivisionError).
Proof.
  assert (H : outputs G_1x1 (ingest G_1x1 [[7]] st_1x1) = Raise IndexError)
    by reflexivity.
  split; [exact H|].
  exact (outputs_exceptions G_1x1 (ingest G_1x1 [[7]] st_1x1) IndexError H).
Defined.

Lemma length_sorted_reverse {A : Type} (key : A -> Z) (l : list A) :
  length (sorted_reverse key l) = length l.
Proof. apply Permutation_length, sorted_reverse_Permutation. Qed.

Lemma dict_lookup_Some {V : Type} (d : dict V) k v :
  dict_get d k = Some v -> dict_lookup d k = Ok v.
Proof. intros H. unfold dict_lookup. rewrite H. reflexivity. Qed.

(** With [K] at least the number of distinct items the ranking is read
    past its end, in the first loop or in the first turn of the second. *)
Lemma statistics_K_large (G : Globals) (st : State) :
  Z.of_nat (length (histogram st)) <= K G ->
  exists e, statistics G st = Raise e /\ (e = IndexError \/ e = KeyError).
Proof.
  intros HK.
  destruct (Z.eq_dec (K G) (Z.of_nat (length (histogram st)))) as [Heq|Hne].
  - apply statistics_K_distinct, Heq.
  - unfold statistics.
    set (desc := sorted_reverse _ (histogram st)).
    assert (Hlen : length desc = length (histogram st))
      by apply length_sorted_reverse.
    set (lv0 := {| count := 1; item := None; true_freq := None;
                   approx_freq := None; avg_error_list := [];
                   F2_list := ([], []); lines := [] |}).
    destruct (fold_result_Raise_at
                (top_body desc (approx_histogram st) (K G <=? 20))
                (np_arange 0 (K G)) (Z.of_nat (length desc)) lv0) as [e He].
    + apply np_arange_In. lia.
    + intros acc. unfold top_body.
      rewrite py_index_outside by lia. eauto.
    + rewrite He. exists e. split; [reflexivity|].
      eapply (fold_result_Raise _ (fun e => e = IndexError \/ e = KeyError));
        [|exact He].
      intros acc x e'. apply top_body_Raise.
Qed.

(** X13.  When [K] is at least the number of distinct items of the
    histogram, the output section ends in [IndexError]. *)
Theorem outputs_K_too_large (G : Globals) (st : State) :
  Z.of_nat (length (histogram st)) <= K G ->
  outputs G st = Raise IndexError.
Proof.
  intros HK. unfold outputs.
  destruct (compute_approx_histogram_frame G st) as (_ & Hh & _).
  destruct (statistics_K_large G (compute_approx_histogram G st))
    as (e & He & Hcases); [rewrite Hh; exact HK|].
  rewrite He. f_equal.
  destruct Hcases as [-> | ->]; [reflexivity|].
  apply statistics_exceptions in He;
    [|apply compute_approx_histogram_keys].
  destruct He as [He|[He|He]]; discriminate.
Qed.

Lemma outputs_K_too_large_witness :
  Z.of_nat (length (histogram (ingest G_1x1_K5 [[1; 1; 3]; [2]] st_1x1)))
  <= K G_1x1_K5
  /\ outputs G_1x1_K5 (ingest G_1x1_K5 [[1; 1; 3]; [2]] st_1x1)
     = Raise IndexError.
Proof.
  assert (H : Z.of_nat (length (histogram
                                  (ingest G_1x1_K5 [[1; 1; 3]; [2]] st_1x1)))
              <= K G_1x1_K5) by (vm_compute; discriminate).
  split; [exact H|].
  exact (outputs_K_too_large G_1x1_K5
           (ingest G_1x1_K5 [[1; 1; 3]; [2]] st_1x1) H).
Defined.

(** X14.  With [K <= 0] the first loop does nothing; when the loop over
    the ties then stops at its first comparison (the estimates of the
    entries at [K - 1] and [K], counted from the end of the ranking, are
    not equal), the last loop reads [true_freq], which was never assigned,
    and the output section ends in [NameError]. *)
Theorem statistics_K_nonpositive (G : Globals) (st : State)
  (e1 e2 : Z * Z) (x y : float64) :
  K G <= 0 ->
  py_index (sorted_reverse (fun item : Z * Z => item.2) (histogram st)) (K G - 1)
  = Ok e1 ->
  py_index (sorted_reverse (fun item : Z * Z => item.2) (histogram st)) (K G)
  = Ok e2 ->
  dict_get (approx_histogram st) e1.1 = Some x ->
  dict_get (approx_histogram st) e2.1 = Some y ->
  fl_eqb x y = false ->
  statistics G st = Raise NameError.
Proof.
  intros HK H1 H2 Hx Hy Hne. unfold statistics.
  set (desc := sorted_reverse _ (histogram st)) in *.
  assert (Hlen : length desc = length (histogram st))
    by apply length_sorted_reverse.
  set (lv0 := {| count := 1; item := None; true_freq := None;
                 approx_freq := None; avg_error_list := [];
                 F2_list := ([], []); lines := [] |}).
  assert (np_arange 0 (K G) = []) as ->.
  { unfold np_arange. replace (Z.to_nat (K G - 0)) with 0%nat by lia.
    reflexivity. }
  cbn [fold_result fold_left mbind result_bind].
  assert (Hstep : tie_step G desc (approx_histogram st) (K G <=? 20) lv0
                  = Ok None).
  { unfold tie_step. rewrite H1. cbn [mbind result_bind].
    rewrite (dict_lookup_Some _ _ _ Hx). cbn [mbind result_bind].
    replace (K G - 1 + count lv0) with (K G) by (cbn [count lv0]; lia).
    rewrite H2. cbn [mbind result_bind].
    rewrite (dict_lookup_Some _ _ _ Hy). cbn [mbind result_bind].
    rewrite Hne. reflexivity. }
  cbn [tie_loop]. rewrite Hstep. cbn [mbind result_bind mret result_ret].
  apply py_index_Ok in H2.
  destruct (np_arange (K G) (Z.of_nat (length (histogram st)))) as [|k ks] eqn:E.
  - exfalso. assert (Hin : In (K G) (np_arange (K G)
                                   (Z.of_nat (length (histogram st)))))
      by (apply np_arange_In; lia).
    rewrite E in Hin. exact Hin.
  - rewrite fold_result_cons. reflexivity.
Qed.

Lemma statistics_K_nonpositive_witness :
  K G_1x1_K0 <= 0
  /\ statistics G_1x1_K0
       (compute_approx_histogram G_1x1_K0 (ingest G_1x1_K0 [[1; 1; 2]] st_1x1))
     = Raise NameError.
Proof.
  assert (HK : K G_1x1_K0 <= 0) by discriminate.
  split; [exact HK|].
  apply (statistics_K_nonpositive G_1x1_K0
           (compute_approx_histogram G_1x1_K0
              (ingest G_1x1_K0 [[1; 1; 2]] st_1x1))
           (2, 1) (1, 2) (fin (-1)) (fin 1) HK); reflexivity.
Defined.

(** ** A report, when there is one *)

Lemma statistics_Ok_fields (G : Globals) (st : State) r :
  statistics G st = Ok r ->
  total_items r = (streamLength st).1
  /\ total_items_in_R r = (streamLength st).2
  /\ distinct_items_in_R r = Z.of_nat (length (histogram st)).
Proof.
  unfold statistics.
  destruct (fold_result _ (np_arange 0 (K G)) _) as [lv1|]; cbn [mbind result_bind];
    [|discriminate].
  destruct (tie_loop _ _ _ _ _ lv1) as [lv2|]; cbn [mbind result_bind];
    [|discriminate].
  destruct (fold_result rest_body _ lv2) as [lv3|]; cbn [mbind result_bind];
    [|discriminate].
  destruct (py_truediv _ _) as [f2|]; cbn [mbind result_bind]; [|discriminate].
  destruct (F2_estimate_value _ _) as [f2e|]; cbn [mbind result_bind];
    [|discriminate].
  intros [= <-]. repeat split.
Qed.

(** X15.  When the output section produces a report, [K] is below the
    number of distinct items, at least one item was admitted, and the
    report echoes [streamLength[0]], [streamLength[1]] and the number of
    distinct items. *)
Theorem outputs_Ok (G : Globals) (st : State) (r : Report) :
  outputs G st = Ok r ->
  K G < Z.of_nat (length (histogram st))
  /\ (streamLength st).2 <> 0
  /\ total_items r = (streamLength st).1
  /\ total_items_in_R r = (streamLength st).2
  /\ distinct_items_in_R r = Z.of_nat (length (histogram st)).
Proof.
  unfold outputs. intros Hr.
  destruct (compute_approx_histogram_frame G st) as (Hs & Hh & _).
  split; [|split].
  - destruct (Z_lt_le_dec (K G) (Z.of_nat (length (histogram st))))
      as [Hlt|Hle]; [exact Hlt|].
    destruct (statistics_K_large G (compute_approx_histogram G st))
      as (e & He & _); [rewrite Hh; exact Hle | congruence].
  - intros Hz.
    destruct (statistics_Raise G (compute_approx_histogram G st))
      as (e & He & _); [rewrite Hs; exact Hz | congruence].
  - apply statistics_Ok_fields in Hr. rewrite Hs, Hh in Hr. exact Hr.
Qed.

Lemma outputs_Ok_witness :
  match outputs G_2x3 (ingest G_2x3 [[1; 1; 2; 3]; [12; 3; 1]] st_2x3) with
  | Ok r =>
      K G_2x3 < Z.of_nat (length (histogram
                                    (ingest G_2x3 [[1; 1; 2; 3]; [12; 3; 1]] st_2x3)))
      /\ total_items r = 7 /\ total_items_in_R r = 6 /\ distinct_items_in_R r = 3
  | Raise _ => False
  end.
Proof.
  destruct (outputs G_2x3 (ingest G_2x3 [[1; 1; 2; 3]; [12; 3; 1]] st_2x3))
    as [r|e] eqn:H.
  - destruct (outputs_Ok _ _ _ H) as (H1 & _ & H2 & H3 & H4).
    split; [exact H1|]. split; [exact H2|]. split; [exact H3 | exact H4].
  - vm_compute in H. discriminate.
Defined.

(** ** The report when there is no tie at the boundary *)

Lemma np_arange_snoc (k : nat) :
  np_arange 0 (Z.of_nat (S k)) = np_arange 0 (Z.of_nat k) ++ [Z.of_nat k].
Proof.
  unfold np_arange.
  replace (Z.to_nat (Z.of_nat (S k) - 0)) with (S k) by lia.
  replace (Z.to_nat (Z.of_nat k - 0)) with k by lia.
  rewrite seq_S, map_app. reflexivity.
Qed.

Section NormalPath.
Variable G : Globals.
Variable desc_histogram : list (Z * Z).
Variable approx_histogram : dict float64.
Variable printing : bool.
Variable est : Z -> float64.
Hypothesis estimates :
  forall e, In e desc_histogram -> dict_lookup approx_histogram e.1 = Ok (est e.1).

Lemma top_body_Ok lv k e :
  py_index desc_histogram k = Ok e ->
  top_body desc_histogram approx_histogram printing lv k
  = Ok {| count := count lv;
          item := if printing then Some e.1 else item lv;
          true_freq := Some e.2;
          approx_freq := Some (est e.1);
          avg_error_list := avg_error_list lv ++ [rel_err e.2 (est e.1)];
          F2_list := ((F2_list lv).1 ++ [e.2 ^ 2],
                      (F2_list lv).2 ++ [fl_sq (est e.1)]);
          lines := if printing then lines lv ++ [(e.1, e.2, est e.1)]
                   else lines lv |}.
Proof using estimates.
  intros He. unfold top_body. rewrite He. cbn [mbind result_bind].
  rewrite estimates by (eapply py_index_In, He). reflexivity.
Qed.

Lemma top_loop (k : nat) lv0 :
  (k <= length desc_histogram)%nat ->
  exists lv,
    fold_result (top_body desc_histogram approx_histogram printing)
                (np_arange 0 (Z.of_nat k)) lv0 = Ok lv
    /\ count lv = count lv0
    /\ lines lv
       = lines lv0
         ++ (if printing
             then List.map (fun e : Z * Z => (e.1, e.2, est e.1))
                           (take k desc_histogram)
             else [])
    /\ avg_error_list lv
       = avg_error_list lv0
         ++ List.map (fun e : Z * Z => rel_err e.2 (est e.1))
                     (take k desc_histogram)
    /\ ((0 < k)%nat -> true_freq lv <> None /\ approx_freq lv <> None).
Proof using estimates.
  induction k as [|k IH]; intros Hk.
  - exists lv0. split; [reflexivity|]. split; [reflexivity|].
    rewrite take_0. simpl. destruct printing; rewrite !app_nil_r.
    + repeat split; lia.
    + repeat split; lia.
  - destruct IH as (lv & Hfold & Hc & Hl & Ha & _); [lia|].
    destruct (lookup_lt_is_Some_2 desc_histogram k ltac:(lia)) as [e He].
    rewrite np_arange_snoc, fold_result_app, Hfold. cbn [mbind result_bind].
    rewrite fold_result_cons.
    rewrite (top_body_Ok lv _ e (py_index_nat _ _ _ He)).
    cbn [mbind result_bind mret result_ret fold_result fold_left].
    eexists. split; [reflexivity|].
    cbn [count lines avg_error_list true_freq approx_freq].
    rewrite (take_S_r _ _ _ He), !map_app. simpl List.map.
    split; [exact Hc|]. split; [|split].
    + rewrite Hl. destruct printing; rewrite <- ?app_assoc, ?app_nil_r; reflexivity.
    + rewrite Ha, <- app_assoc. reflexivity.
    + intros _. split; discriminate.
Qed.

Lemma rest_body_Ok lv k t af :
  true_freq lv = Some t -> approx_freq lv = Some af ->
  rest_body lv k
  = Ok {| count := count lv; item := item lv; true_freq := Some t;
          approx_freq := Some af; avg_error_list := avg_error_list lv;
          F2_list := ((F2_list lv).1 ++ [t ^ 2], (F2_list lv).2 ++ [fl_sq af]);
          lines := lines lv |}.
Proof. intros Ht Ha. unfold rest_body. rewrite Ht, Ha. reflexivity. Qed.

Lemma rest_loop (l : list Z) lv :
  true_freq lv <> None -> approx_freq lv <> None ->
  exists lv',
    fold_result rest_body l lv = Ok lv'
    /\ lines lv' = lines lv /\ avg_error_list lv' = avg_error_list lv.
Proof.
  revert lv. induction l as [|k l IH]; intros lv Ht Ha.
  - exists lv. repeat split.
  - destruct (true_freq lv) as [t|] eqn:Et; [|congruence].
    destruct (approx_freq lv) as [af|] eqn:Ea; [|congruence].
    rewrite fold_result_cons, (rest_body_Ok lv k t af Et Ea).
    cbn [mbind result_bind].
    match goal with
    | |- context [fold_result rest_body l ?lv1] =>
        destruct (IH lv1) as (lv' & Hf & Hl & Hav);
        [discriminate | discriminate |]
    end.
    exists lv'. split; [exact Hf|]. split; [exact Hl | exact Hav].
Qed.

Lemma tie_loop_break fuel lv e1 e2 :
  count lv = 1 ->
  py_index desc_histogram (K G - 1) = Ok e1 ->
  py_index desc_histogram (K G) = Ok e2 ->
  fl_eqb (est e1.1) (est e2.1) = false ->
  tie_loop G desc_histogram approx_histogram printing (S fuel) lv = Ok lv.
Proof using estimates.
  intros Hc H1 H2 Hne. cbn [tie_loop]. unfold tie_step.
  rewrite H1. cbn [mbind result_bind].
  rewrite estimates by (eapply py_index_In, H1). cbn [mbind result_bind].
  replace (K G - 1 + count lv) with (K G) by lia.
  rewrite H2. cbn [mbind result_bind].
  rewrite estimates by (eapply py_index_In, H2). cbn [mbind result_bind].
  rewrite Hne. reflexivity.
Qed.

End NormalPath.

Lemma F2_values_Ok (l0 : list Z) (l1 : list float64) adm :
  adm <> 0 ->
  exists f2 f2e,
    py_truediv (sum_Z l0) (adm ^ 2) = Ok f2
    /\ F2_estimate_value l1 adm = Ok f2e.
Proof.
  intros Hadm.
  assert (Hsq : (adm ^ 2 =? 0) = false) by (apply Z.eqb_neq; nia).
  unfold F2_estimate_value, py_truediv. rewrite Hsq.
  destruct l1; cbn [mbind result_bind mret result_ret]; eauto.
Qed.

(** X16.  With [0 < K], at least one admitted item, and the estimates of
    the [K]-th and the [(K+1)]-th ranked items not equal, the output
    section produces a report: for [K <= 20] it lists exactly the first
    [K] entries of the ranking, in order, each with its own true frequency
    and estimate (for [K > 20] it lists nothing), and the average error is
    the mean of [|true - estimate| / true] over these [K] entries. *)
Theorem outputs_without_tie (G : Globals) (st : State) (e1 e2 : Z * Z) :
  let ranking := sorted_reverse (fun item : Z * Z => item.2) (histogram st) in
  let top := take (Z.to_nat (K G)) ranking in
  0 < K G ->
  (streamLength st).2 <> 0 ->
  ranking !! Z.to_nat (K G - 1) = Some e1 ->
  ranking !! Z.to_nat (K G) = Some e2 ->
  fl_eqb (estimate G (sketch st) e1.1) (estimate G (sketch st) e2.1) = false ->
  exists r,
    outputs G st = Ok r
    /\ item_lines r
       = (if K G <=? 20
          then List.map
                 (fun e : Z * Z => (e.1, e.2, estimate G (sketch st) e.1)) top
          else [])
    /\ avg_err r
       = np_mean (List.map
                    (fun e : Z * Z => rel_err e.2 (estimate G (sketch st) e.1))
                    top).
Proof.
  intros ranking top HK Hadm H1 H2 Hne. subst top.
  unfold outputs, statistics.
  destruct (compute_approx_histogram_frame G st) as (Hs & Hh & _).
  rewrite Hh, Hs. fold ranking.
  set (approx := approx_histogram (compute_approx_histogram G st)).
  assert (Hest : forall e, In e ranking ->
            dict_lookup approx e.1 = Ok (estimate G (sketch st) e.1)).
  { intros e He. apply dict_lookup_Some, compute_approx_histogram_get.
    unfold dict_keys. apply in_map.
    apply (Permutation_in _ (sorted_reverse_Permutation
                               (fun item : Z * Z => item.2) (histogram st))), He. }
  set (lv0 := {| count := 1; item := None; true_freq := None;
                 approx_freq := None; avg_error_list := [];
                 F2_list := ([], []); lines := [] |}).
  pose proof (lookup_lt_Some _ _ _ H2) as Hlen.
  destruct (top_loop ranking approx (K G <=? 20) (estimate G (sketch st)) Hest
              (Z.to_nat (K G)) lv0) as (lv1 & Hf1 & Hc & Hl & Ha & Hvars); [lia|].
  rewrite Z2Nat.id in Hf1 by lia. rewrite Hf1. cbn [mbind result_bind].
  rewrite (tie_loop_break G ranking approx (K G <=? 20) (estimate G (sketch st))
             Hest _ lv1 e1 e2 Hc);
    [|rewrite <- (Z2Nat.id (K G - 1)) by lia; apply py_index_nat, H1
     |rewrite <- (Z2Nat.id (K G)) at 1 by lia; apply py_index_nat, H2
     |exact Hne].
  cbn [mbind result_bind].
  destruct Hvars as [Ht Haf]; [lia|].
  destruct (rest_loop (np_arange (K G) (Z.of_nat (length (histogram st)))) lv1
              Ht Haf) as (lv3 & Hf3 & Hl3 & Ha3).
  rewrite Hf3. cbn [mbind result_bind].
  destruct (F2_values_Ok (F2_list lv3).1 (F2_list lv3).2 (streamLength st).2 Hadm)
    as (f2 & f2e & -> & ->).
  cbn [mbind result_bind mret result_ret].
  eexists. split; [reflexivity|]. cbn [item_lines avg_err].
  rewrite Hl3, Ha3, Hl, Ha. split; [|reflexivity].
  destruct (K G <=? 20); reflexivity.
Qed.

Lemma outputs_without_tie_witness :
  0 < K G_2x3
  /\ exists r,
       outputs G_2x3 (ingest G_2x3 [[1; 1; 2; 3]; [12; 3; 1]] st_2x3) = Ok r
       /\ item_lines r
          = [(1, 3, estimate G_2x3
                      (sketch (ingest G_2x3 [[1; 1; 2; 3]; [12; 3; 1]] st_2x3)) 1)].
Proof.
  assert (HK : 0 < K G_2x3) by reflexivity.
  split; [exact HK|].
  destruct (outputs_without_tie G_2x3
              (ingest G_2x3 [[1; 1; 2; 3]; [12; 3; 1]] st_2x3) (1, 3) (3, 2) HK)
    as (r & Hr & Hl & _); try reflexivity; [discriminate|].
  exists r. split; [exact Hr | exact Hl].
Defined.

(** ** Batches without admissible items, and whole streams *)

Lemma count_sketch_nil (G : Globals) sk : count_sketch G [] sk = sk.
Proof. rewrite count_sketch_ops. reflexivity. Qed.

Lemma filter_none {A : Type} (f : A -> bool) (l : list A) :
  Forall (fun x => f x = false) l -> List.filter f l = [].
Proof.
  induction 1 as [|x l Hx _ IH]; simpl; [reflexivity|].
  rewrite Hx. exact IH.
Qed.

(** X17.  A batch with no item inside [[left, right]] (an empty batch
    too), arriving below the threshold, only adds its size to
    [streamLength[0]]: the count of admitted items, the histogram and the
    sketch stay as they are. *)
Theorem process_batch_nothing_admitted (G : Globals) (batch : list Z) (st : State) :
  (streamLength st).1 < THRESHOLD ->
  Forall (fun x => x < left G \/ right G < x) batch ->
  let st' := process_batch G batch st in
  streamLength st' = ((streamLength st).1 + Z.of_nat (length batch),
                      (streamLength st).2)
  /\ histogram st' = histogram st
  /\ sketch st' = sketch st
  /\ approx_histogram st' = approx_histogram st.
Proof.
  intros Hlt Hout st'. subst st'.
  rewrite process_batch_run by (apply Z.leb_gt; lia).
  assert (Hf : List.filter (in_interval G) batch = []).
  { apply filter_none. eapply Forall_impl; [exact Hout|].
    intros x Hx. unfold in_interval. cbv beta in Hx.
    apply andb_false_iff.
    destruct Hx as [Hx|Hx]; [left | right]; apply Z.leb_gt; exact Hx. }
  rewrite Hf. cbn [streamLength histogram sketch approx_histogram length
                     List.map fold_left reduceByKey_collectAsMap].
  rewrite count_sketch_nil, Z.add_0_r. repeat split.
Qed.

Lemma process_batch_nothing_admitted_witness :
  (streamLength (process_batch G_1x1 [3] st_1x1)).1 < THRESHOLD
  /\ Forall (fun x => x < left G_1x1 \/ right G_1x1 < x) [12; 0]
  /\ histogram (process_batch G_1x1 [12; 0] (process_batch G_1x1 [3] st_1x1))
     = histogram (process_batch G_1x1 [3] st_1x1).
Proof.
  assert (H1 : (streamLength (process_batch G_1x1 [3] st_1x1)).1 < THRESHOLD)
    by reflexivity.
  assert (H2 : Forall (fun x => x < left G_1x1 \/ right G_1x1 < x) [12; 0]).
  { constructor; [right; reflexivity|]. constructor; [left; reflexivity|].
    constructor. }
  split; [exact H1|]. split; [exact H2|].
  exact (proj1 (proj2 (process_batch_nothing_admitted G_1x1 [12; 0]
                         (process_batch G_1x1 [3] st_1x1) H1 H2))).
Defined.

Lemma length_concat_removelast {A : Type} (s : list (list A)) :
  (length (concat (removelast s)) <= length (concat s))%nat.
Proof.
  induction s as [|b s IH] using rev_ind; [simpl; lia|].
  rewrite removelast_last, concat_app, length_app. lia.
Qed.

Lemma concat_filter_app {A : Type} (f : A -> bool) (s : list (list A)) b :
  List.filter f (concat (s ++ [b]))
  = List.filter f (concat s) ++ List.filter f b.
Proof. rewrite concat_app, List.filter_app. simpl. rewrite app_nil_r. reflexivity. Qed.

Lemma ingest_whole (G : Globals) (st0 : State) (stream : list (list Z)) :
  streamLength st0 = (0, 0) -> histogram st0 = [] ->
  Z.of_nat (length (concat (removelast stream))) < THRESHOLD ->
  let st := ingest G stream st0 in
  let admitted := List.filter (in_interval G) (concat stream) in
  streamLength st = (Z.of_nat (length (concat stream)),
                     Z.of_nat (length admitted))
  /\ (forall item,
        dict_get (histogram st) item
        = if multiplicity item admitted =? 0 then None
          else Some (multiplicity item admitted))
  /\ sketch st = count_sketch G admitted (sketch st0).
Proof.
  intros Hs Hh.
  induction stream as [|batch stream IH] using rev_ind; intros Hlt st admitted;
    subst st admitted.
  - unfold ingest. simpl. rewrite Hs, Hh, count_sketch_nil. repeat split.
  - rewrite removelast_last in Hlt.
    destruct IH as (IHs & IHh & IHk).
    { pose proof (length_concat_removelast stream). lia. }
    rewrite ingest_snoc.
    rewrite process_batch_run by (rewrite IHs; apply Z.leb_gt; exact Hlt).
    cbn [streamLength histogram sketch fst snd].
    rewrite IHs, IHk, concat_filter_app. cbn [fst snd].
    split; [|split].
    + rewrite concat_app. cbn [concat]. rewrite app_nil_r, !length_app, !Nat2Z.inj_add.
      reflexivity.
    + intros item. rewrite histogram_update_get, IHh, multiplicity_app.
      pose proof (multiplicity_nonneg item
                    (List.filter (in_interval G) (concat stream))).
      pose proof (multiplicity_nonneg item (List.filter (in_interval G) batch)).
      set (m1 := multiplicity item (List.filter (in_interval G) (concat stream))) in *.
      set (m2 := multiplicity item (List.filter (in_interval G) batch)) in *.
      destruct (m1 =? 0) eqn:E1, (m2 =? 0) eqn:E2;
        [apply Z.eqb_eq in E1 | apply Z.eqb_eq in E1
         | apply Z.eqb_neq in E1 | apply Z.eqb_neq in E1];
        [apply Z.eqb_eq in E2 | apply Z.eqb_neq in E2
         | apply Z.eqb_eq in E2 | apply Z.eqb_neq in E2].
      * replace (m1 + m2 =? 0) with true by (symmetry; apply Z.eqb_eq; lia).
        reflexivity.
      * replace (m1 + m2 =? 0) with false by (symmetry; apply Z.eqb_neq; lia).
        simpl. f_equal. lia.
      * replace (m1 + m2 =? 0) with false by (symmetry; apply Z.eqb_neq; lia).
        f_equal. lia.
      * replace (m1 + m2 =? 0) with false by (symmetry; apply Z.eqb_neq; lia).
        simpl. f_equal.
    + apply count_sketch_split. reflexivity.
Qed.

(** X18.  For a stream whose batches before the last hold fewer items
    than the threshold, no batch is skipped: [streamLength] holds the
    number of items of the stream and the number of those inside
    [[left, right]], the histogram holds for each of the latter its exact
    number of occurrences and nothing else, and the sketch is the one
    [count_sketch] builds from all admitted items as one batch. *)
Theorem ingest_exact (d w l r k : Z) (draw_a draw_b : nat -> Z)
  (G : Globals) (st0 : State) (stream : list (list Z)) :
  main_init d w l r k draw_a draw_b = Ok (G, st0) ->
  Z.of_nat (length (concat (removelast stream))) < THRESHOLD ->
  let st := ingest G stream st0 in
  let admitted :=
    List.filter (fun x => (left G <=? x) && (x <=? right G)) (concat stream) in
  streamLength st = (Z.of_nat (length (concat stream)),
                     Z.of_nat (length admitted))
  /\ (forall item,
        dict_get (histogram st) item
        = if multiplicity item admitted =? 0 then None
          else Some (multiplicity item admitted))
  /\ sketch st = count_sketch G admitted (sketch st0).
Proof.
  intros Hinit Hlt.
  apply main_init_facts in Hinit as (_ & _ & _ & _ & _ & _ & Hs & Hh & _).
  apply ingest_whole; assumption.
Qed.

Lemma ingest_exact_witness :
  main_init 2 3 1 9 1 (fun i => 2 + 17 * Z.of_nat i) (fun i => 5 * Z.of_nat i)
  = Ok (G_2x3, st_2x3)
  /\ Z.of_nat (length (concat (removelast [[1; 1; 2; 3]; [12; 3; 1]]))) < THRESHOLD
  /\ dict_get (histogram (ingest G_2x3 [[1; 1; 2; 3]; [12; 3; 1]] st_2x3)) 1
     = Some 3.
Proof.
  assert (H : main_init 2 3 1 9 1 (fun i => 2 + 17 * Z.of_nat i)
                (fun i => 5 * Z.of_nat i) = Ok (G_2x3, st_2x3)) by reflexivity.
  assert (Hlt : Z.of_nat (length (concat (removelast [[1; 1; 2; 3]; [12; 3; 1]])))
                < THRESHOLD) by reflexivity.
  split; [exact H|]. split; [exact Hlt|].
  exact (proj1 (proj2 (ingest_exact _ _ _ _ _ _ _ _ _
                         [[1; 1; 2; 3]; [12; 3; 1]] H Hlt)) 1).
Defined.

(** ** How many lines a report lists *)

Section Lines.
Variable G : Globals.
Variable desc_histogram : list (Z * Z).
Variable approx_histogram : dict float64.
Variable printing : bool.

Lemma top_body_lines lv k lv' :
  top_body desc_histogram approx_histogram printing lv k = Ok lv' ->
  length (lines lv') = (length (lines lv) + lines_added printing 1)%nat.
Proof.
  unfold top_body, lines_added.
  destruct (py_index desc_histogram k); cbn [mbind result_bind]; [|discriminate].
  destruct (dict_lookup approx_histogram x.1); cbn [mbind result_bind];
    [|discriminate].
  intros [= <-]. cbn [lines]. destruct printing; [|lia].
  rewrite length_app. reflexivity.
Qed.

Lemma top_loop_lines l lv lv' :
  fold_result (top_body desc_histogram approx_histogram printing) l lv = Ok lv' ->
  length (lines lv') = (length (lines lv) + lines_added printing (length l))%nat.
Proof.
  revert lv. induction l as [|k l IH]; intros lv.
  - intros [= <-]. unfold lines_added. destruct printing; simpl; lia.
  - rewrite fold_result_cons.
    destruct (top_body desc_histogram approx_histogram printing lv k)
      as [lv1|] eqn:E; cbn [mbind result_bind]; [|discriminate].
    intros H. apply IH in H. apply top_body_lines in E.
    unfold lines_added in *. destruct printing; simpl in *; lia.
Qed.

Lemma tie_step_lines lv lv' :
  tie_step G desc_histogram approx_histogram printing lv = Ok (Some lv') ->
  length (lines lv') = (length (lines lv) + lines_added printing 1)%nat.
Proof.
  unfold tie_step, lines_added.
  repeat match goal with
         | |- context [py_index ?l ?i] =>
             destruct (py_index l i); cbn [mbind result_bind]; [|discriminate]
         | |- context [dict_lookup ?d ?k] =>
             destruct (dict_lookup d k); cbn [mbind result_bind]; [|discriminate]
         | |- context [if fl_eqb ?x ?y then _ else _] =>
             destruct (fl_eqb x y); [|discriminate]
         end.
  intros [= <-]. cbn [lines]. destruct printing; [|lia].
  rewrite length_app. reflexivity.
Qed.

Lemma tie_loop_lines fuel lv lv' :
  tie_loop G desc_histogram approx_histogram printing fuel lv = Ok lv' ->
  exists extra,
    length (lines lv') = (length (lines lv) + lines_added printing extra)%nat.
Proof.
  revert lv. induction fuel as [|fuel IH]; intros lv; [discriminate|].
  cbn [tie_loop].
  destruct (tie_step G desc_histogram approx_histogram printing lv)
    as [[lv1|]|] eqn:E; cbn [mbind result_bind]; [| |discriminate].
  - intros H. apply IH in H as [extra H]. apply tie_step_lines in E.
    exists (S extra). unfold lines_added in *. destruct printing; lia.
  - intros [= <-]. exists 0%nat. unfold lines_added. destruct printing; lia.
Qed.

End Lines.

Lemma rest_loop_lines l lv lv' :
  fold_result rest_body l lv = Ok lv' -> lines lv' = lines lv.
Proof.
  revert lv. induction l as [|k l IH]; intros lv.
  - intros [= <-]. reflexivity.
  - rewrite fold_result_cons.
    destruct (rest_body lv k) as [lv1|] eqn:E; cbn [mbind result_bind];
      [|discriminate].
    intros H. apply IH in H. rewrite H. revert E. unfold rest_body, read_var.
    destruct (true_freq lv); cbn [mbind result_bind]; [|discriminate].
    destruct (approx_freq lv); cbn [mbind result_bind]; [|discriminate].
    intros [= <-]. reflexivity.
Qed.

(** X19.  A report for [K <= 20] lists at least [K] items (the top [K],
    and one more for each turn of the loop over the ties); a report for
    [K > 20] lists none. *)
Theorem outputs_lines (G : Globals) (st : State) (r : Report) :
  outputs G st = Ok r ->
  if K G <=? 20 then K G <= Z.of_nat (length (item_lines r))
  else item_lines r = [].
Proof.
  unfold outputs, statistics.
  set (st' := compute_approx_histogram G st).
  set (desc := sorted_reverse _ (histogram st')).
  destruct (fold_result _ (np_arange 0 (K G)) _) as [lv1|] eqn:E1;
    cbn [mbind result_bind]; [|discriminate].
  destruct (tie_loop G desc (approx_histogram st') (K G <=? 20) _ lv1)
    as [lv2|] eqn:E2; cbn [mbind result_bind]; [|discriminate].
  destruct (fold_result rest_body _ lv2) as [lv3|] eqn:E3;
    cbn [mbind result_bind]; [|discriminate].
  destruct (py_truediv _ _) as [f2|]; cbn [mbind result_bind]; [|discriminate].
  destruct (F2_estimate_value _ _) as [f2e|]; cbn [mbind result_bind];
    [|discriminate].
  intros [= <-]. cbn [item_lines].
  apply top_loop_lines in E1. apply tie_loop_lines in E2 as [extra E2].
  apply rest_loop_lines in E3. rewrite E3.
  rewrite length_np_arange in E1. cbn [lines length] in E1.
  unfold lines_added in *.
  destruct (K G <=? 20).
  - lia.
  - apply nil_length_inv. lia.
Qed.

Lemma outputs_lines_witness :
  match outputs G_2x3 (ingest G_2x3 [[1; 1; 2; 3]; [12; 3; 1]] st_2x3) with
  | Ok r => K G_2x3 <= Z.of_nat (length (item_lines r))
  | Raise _ => False
  end.
Proof.
  destruct (outputs G_2x3 (ingest G_2x3 [[1; 1; 2; 3]; [12; 3; 1]] st_2x3))
    as [r|e] eqn:H.
  - exact (outputs_lines _ _ _ H).
  - vm_compute in H. discriminate.
Defined.
